(** * starflyer: forms, handlers and the application dispatch cascade

    A shallow embedding of the parts of [starflyer] that carry control flow:

    - [starflyer/form/core.py] and [starflyer/form/widgets.py]: widgets,
      their [from_form]/[to_form] conversions and [Form.process];
    - [starflyer/handler.py]: [Handler.handle], the verb dispatch;
    - [starflyer/app.py]: [Application.process_request] and the
      exception-to-response cascade.

    Python dictionaries are finite maps ([gmap]) unless their iteration
    order matters, exceptions are values of the type [exn], and a Python
    call that may raise returns an [outcome]. *)

From Stdlib Require Import ZArith Ascii.
From stdpp Require Import gmap strings list fin_maps.

#[local] Set Warnings "-register-all".
#[local] Open Scope string_scope.
#[local] Open Scope Z_scope.

(** ** Python values that flow through the form layer *)

(** [no_value] is the module-level sentinel [no_value = object()] of
    [form/core.py], distinct from [None] and from the empty string.  [VForm]
    and [VRequest] stand for the form and the request object when they are
    passed around as plain values, [VWidget n] for the widget named [n]. *)
Inductive pyval :=
| no_value
| VNone
| VStr (s : string)
| VObj (id : nat)
| VForm
| VRequest
| VWidget (n : string)
| VDict (d : gmap string pyval).

Definition is_no_value (v : pyval) : bool :=
  match v with no_value => true | _ => false end.

(** ** Exceptions *)

(** An instance of [starflyer.processors.Error(code, msg)]. *)
Record Error := mkError { code : string; msg : string }.

(** The exceptions of the model are instances of Python's [Exception]; this
    is the class every [except] clause of the sources names, so [try ...
    except Exception] is a handler for every value of [exn]. *)
Inductive exn :=
| processors_Error (e : Error)
| FormError (errors : gmap string Error)
| HTTPException (cls : string) (status : option Z) (description : option string)
| FormDataRoutingRedirect (original : string)
| KeyError (key : string)
| AttributeError (obj attr : string)
| UnboundLocalError (var : string)
| TypeError (what : string)
| UserException (bases : list string) (args : string)
| NameError (name : string)
| UnicodeEncodeError (codec : string).

(** [FormError.__init__] also stores [error_dict], the messages by name. *)
Definition error_dict (errors : gmap string Error) : gmap string string :=
  msg <$> errors.

Definition NotFound : exn := HTTPException "NotFound" (Some 404) None.
Definition MethodNotAllowed : exn := HTTPException "MethodNotAllowed" (Some 405) None.
Definition InternalServerError (description : option string) : exn :=
  HTTPException "InternalServerError" (Some 500) description.
Definition RequestRedirect (new_url : string) : exn :=
  HTTPException "RequestRedirect" (Some 301) (Some new_url).

(** The classes an exception is an instance of, most specific first (its
    [__mro__] up to [Exception]). *)
Definition mro (e : exn) : list string :=
  match e with
  | processors_Error _ => ["Error"; "Exception"]
  | FormError _ => ["FormError"; "Exception"]
  | HTTPException cls _ _ =>
      if String.eqb cls "HTTPException" then ["HTTPException"; "Exception"]
      else if String.eqb cls "RequestRedirect"
      then ["RequestRedirect"; "HTTPException"; "RoutingException"; "Exception"]
      else [cls; "HTTPException"; "Exception"]
  | FormDataRoutingRedirect _ => ["FormDataRoutingRedirect"; "Exception"]
  | KeyError _ => ["KeyError"; "LookupError"; "StandardError"; "Exception"]
  | AttributeError _ _ => ["AttributeError"; "StandardError"; "Exception"]
  | UnboundLocalError _ =>
      ["UnboundLocalError"; "NameError"; "StandardError"; "Exception"]
  | TypeError _ => ["TypeError"; "StandardError"; "Exception"]
  | UserException bases _ => (bases ++ ["Exception"])%list
  | NameError _ => ["NameError"; "StandardError"; "Exception"]
  | UnicodeEncodeError _ =>
      ["UnicodeEncodeError"; "UnicodeError"; "ValueError"; "StandardError";
       "Exception"]
  end.

Definition isinstance (e : exn) (cls : string) : bool :=
  existsb (String.eqb cls) (mro e).

(** The result of a call: a value, or a raised exception. *)
Inductive outcome (A : Type) :=
| Ok (a : A)
| Raise (e : exn).
Arguments Ok {A} a.
Arguments Raise {A} e.

#[export] Instance outcome_ret : MRet outcome := @Ok.
#[export] Instance outcome_bind : MBind outcome := λ A B f m,
  match m with Ok a => f a | Raise e => Raise e end.

(** ** Strings *)

(** Text is a string of one-byte characters: a byte string ([str]), or
    unicode text whose code points are below U+0100, one [ascii] each. *)

(** Lowering a byte, in the C locale a Python process starts in: [A]-[Z]
    become [a]-[z], every other byte stays. *)
Definition lower_ascii (c : ascii) : ascii :=
  let n := nat_of_ascii c in
  if (Nat.leb 65 n && Nat.leb n 90)%bool then ascii_of_nat (n + 32) else c.

(** [s.lower()] on a byte string. *)
Fixpoint lower (s : string) : string :=
  match s with
  | EmptyString => EmptyString
  | String c s' => String (lower_ascii c) (lower s')
  end.

(** Lowering a unicode character below U+0100: [A]-[Z] and the capital
    letters of Latin-1, U+00C0 to U+00DE without the multiplication sign
    U+00D7, move up by 32. *)
Definition unicode_lower_char (c : ascii) : ascii :=
  let n := nat_of_ascii c in
  if ((Nat.leb 65 n && Nat.leb n 90)
      || (Nat.leb 192 n && Nat.leb n 222 && negb (Nat.eqb n 215)))%bool
  then ascii_of_nat (n + 32) else c.

(** [s.lower()] on unicode text. *)
Fixpoint unicode_lower (s : string) : string :=
  match s with
  | EmptyString => EmptyString
  | String c s' => String (unicode_lower_char c) (unicode_lower s')
  end.

(** A text value of Python 2. *)
Inductive text :=
| Bytes (s : string)
| Unicode (s : string).

(** [t.lower()] *)
Definition text_lower (t : text) : text :=
  match t with
  | Bytes s => Bytes (lower s)
  | Unicode s => Unicode (unicode_lower s)
  end.

(** Every character of [s] is below U+0080. *)
Fixpoint is_ascii (s : string) : bool :=
  match s with
  | EmptyString => true
  | String c s' => Nat.ltb (nat_of_ascii c) 128 && is_ascii s'
  end.

(** The attribute name [hasattr] and [getattr] take from a text: a byte
    string as it is, unicode text encoded with the default codec, ASCII,
    which raises [UnicodeEncodeError] at a character above U+007F. *)
Definition attribute_name (t : text) : outcome string :=
  match t with
  | Bytes s => Ok s
  | Unicode s => if is_ascii s then Ok s else Raise (UnicodeEncodeError "ascii")
  end.

(** The characters [strip()] removes from a text value: a character of the
    submitted text is one [ascii] (a code point below 256). *)
Definition isspace (c : ascii) : bool :=
  let n := nat_of_ascii c in
  ((Nat.leb 9 n && Nat.leb n 13) || (Nat.leb 28 n && Nat.leb n 32)
   || Nat.eqb n 133 || Nat.eqb n 160)%bool.

(** [s.lstrip()] *)
Fixpoint lstrip (s : string) : string :=
  match s with
  | EmptyString => EmptyString
  | String c s' => if isspace c then lstrip s' else s
  end.

(** [s.rstrip()] *)
Definition rstrip (s : string) : string :=
  String.rev (lstrip (String.rev s)).

(** [s.strip()] *)
Definition strip (s : string) : string := rstrip (lstrip s).

(** ** Requests *)

(** The parts of a werkzeug request the sources read.  [req_method] is the
    verb, a byte string.  [req_form] and [req_values] are multi-dicts of
    unicode text read through [get], which yields the first value of a
    key. *)
Record Request := {
  req_method : string;
  req_form : gmap string string;
  req_files : gmap string pyval;
  req_values : gmap string string;
  req_cookies : gmap string string
}.

(** [d.get(n, no_value)] on submitted text. *)
Definition get_or_no_value (d : gmap string string) (n : string) : pyval :=
  match d !! n with Some s => VStr s | None => no_value end.

(** ** starflyer.processors *)

Module processors.

(** Modelled from the spec: the module [starflyer/processors.py] is not
    among the sources.  A transform takes the value produced so far and
    the context keyword arguments; it returns the transformed value or
    signals a typed (kind, message) validation failure. *)
Definition processor : Type := pyval → gmap string pyval → Error + pyval.

(** Modelled from the spec: [processors.process(data, processors, **kw)]
    of the missing module, followed by the [.data] every caller takes:
    each transform is applied to the value produced by the previous one,
    the first failure aborts the remaining chain and is raised as
    [processors.Error], and on success the final value is returned. *)
Fixpoint process (data : pyval) (ps : list processor) (kw : gmap string pyval)
  : outcome pyval :=
  match ps with
  | [] => Ok data
  | p :: ps' =>
      match p data kw with
      | inr data' => process data' ps' kw
      | inl e => Raise (processors_Error e)
      end
  end.

End processors.

(** ** Widgets and forms: the data *)

(** The widget classes of [form/core.py] and [form/widgets.py]. *)
Inductive widget_class :=
| CWidget | CInput | CText | CPassword | CEmail | CURL | CFile
| CDatePicker | CCheckbox | CSelect | CTextarea.

Record Widget := {
  cls : widget_class;
  name : string;
  required : bool;
  messages : gmap string string;
  processors_out : list processors.processor;
  processors_in : list processors.processor
}.

(** The class attribute [Widget.messages]. *)
Definition default_messages : gmap string string :=
  {[ "required" := "This field is required" ]}.

Record Form := {
  form_default : pyval;
  form_request : option Request;
  form_errors : gmap string Error;
  form_data : gmap string Widget;
  form_ctx : gmap string pyval;
  form_processors_in : list processors.processor;
  form_processors_out : list processors.processor
}.

Record RenderContext := {
  rc_form : Form;
  rc_widget : Widget;
  rc_request : option Request;
  rc_default : pyval;
  rc_attrs : gmap string pyval
}.

(** [RenderContext.__init__(widget, form, **kw)]; [attrs.update(kw)] lets
    the keyword arguments win over [form.ctx]. *)
Definition RenderContext_init (widget : Widget) (form : Form)
    (kw : gmap string pyval) : RenderContext :=
  {| rc_form := form; rc_widget := widget;
     rc_request := form_request form; rc_default := form_default form;
     rc_attrs := kw ∪ form_ctx form |}.

(** [from_form] is declared with a [form] parameter in [Widget] and with a
    [request] parameter in [Input], [File] and [Textarea]; either kind of
    object can reach it. *)
Inductive form_or_request :=
| AForm (f : Form)
| ARequest (r : Request).

Definition as_value (x : form_or_request) : pyval :=
  match x with AForm _ => VForm | ARequest _ => VRequest end.

(** [Form.__getitem__(widget_name)], which is also [Form.__getattr__]: a
    render context for the widget of that name, [KeyError] without one. *)
Definition Form_getitem (self : Form) (widget_name : string)
    : outcome RenderContext :=
  match form_data self !! widget_name with
  | Some widget => Ok (RenderContext_init widget self ∅)
  | None => Raise (KeyError widget_name)
  end.

(** [x.request] *)
Definition getattr_request (x : form_or_request) : outcome (option Request) :=
  match x with
  | AForm f => Ok (form_request f)
  | ARequest _ => Raise (AttributeError "Request" "request")
  end.

(** [x.form.get]: on a request the submitted form data; a form has no
    attribute [form], so the lookup falls to [Form.__getattr__], and the
    render context it may return has no [get]. *)
Definition getattr_form (x : form_or_request) : outcome (gmap string string) :=
  match x with
  | ARequest r => Ok (req_form r)
  | AForm f =>
      _ ← Form_getitem f "form"; Raise (AttributeError "RenderContext" "get")
  end.

(** [x.files.get], as [getattr_form]. *)
Definition getattr_files (x : form_or_request) : outcome (gmap string pyval) :=
  match x with
  | ARequest r => Ok (req_files r)
  | AForm f =>
      _ ← Form_getitem f "files"; Raise (AttributeError "RenderContext" "get")
  end.

(** [self.messages['required']] *)
Definition required_message (self : Widget) : outcome string :=
  match messages self !! "required" with
  | Some m => Ok m
  | None => Raise (KeyError "required")
  end.

(** [raise processors.Error('required', self.messages['required'])] *)
Definition raise_required (self : Widget) : outcome pyval :=
  m ← required_message self; Raise (processors_Error (mkError "required" m)).

(** [v.strip() == ""] *)
Definition strip_is_empty (v : pyval) : outcome bool :=
  match v with
  | VStr s => Ok (String.eqb (strip s) "")
  | _ => Raise (AttributeError "object" "strip")
  end.

(** ** form/widgets.py *)

Module Input.

(** [Input.from_form(self, request, **kw)] *)
Definition from_form (self : Widget) (request : form_or_request)
    : outcome pyval :=
  fd ← getattr_form request;
  let v := get_or_no_value fd (name self) in
  blank ← (if is_no_value v then Ok true else strip_is_empty v);
  if blank && required self then raise_required self else Ok v.

End Input.

Module File.

(** [File.from_form(self, request, **kw)]; the [print] is left out. *)
Definition from_form (self : Widget) (request : form_or_request)
    : outcome pyval :=
  fs ← getattr_files request;
  let v := default no_value (fs !! name self) in
  if is_no_value v && required self then raise_required self else Ok v.

End File.

Module Textarea.

(** [Textarea.from_form(self, request, **kw)] *)
Definition from_form (self : Widget) (request : form_or_request)
    : outcome pyval :=
  fd ← getattr_form request;
  let v := get_or_no_value fd (name self) in
  blank ← (if is_no_value v then Ok true else strip_is_empty v);
  if blank && required self then raise_required self else Ok v.

End Textarea.

(** ** form/core.py *)

Module Widget.

(** [Widget.process_out(self, form, value, **kw)] *)
Definition process_out (self : Widget) (form value : pyval)
    (kw : gmap string pyval) : outcome pyval :=
  processors.process value (processors_out self)
    (<["form" := form]> (<["widget" := VWidget (name self)]> kw)).

(** [Widget.process_in(self, value, **kw)] *)
Definition process_in (self : Widget) (value : pyval)
    (kw : gmap string pyval) : outcome pyval :=
  processors.process value (processors_in self) kw.

(** [Widget.from_form(self, form)].  The last line is
    [self.process_out(value, form)]: the submitted value is bound to the
    parameter [form] of [process_out] and the form to [value]. *)
Definition from_form (self : Widget) (form : form_or_request)
    : outcome pyval :=
  r ← getattr_request form;
  fd ← match r with
       | Some r => Ok (req_form r)
       | None => Raise (AttributeError "NoneType" "form")
       end;
  let value := get_or_no_value fd (name self) in
  if is_no_value value && required self then raise_required self
  else process_out self value (as_value form) ∅.

(** The [from_form] a call [self.from_form(...)] resolves to, by the class
    of [self]: [Text], [Password], [Email], [URL] and [DatePicker] inherit
    [Input.from_form]; [Checkbox] and [Select] inherit [Widget.from_form]. *)
Definition self_from_form (self : Widget) : form_or_request → outcome pyval :=
  match cls self with
  | CInput | CText | CPassword | CEmail | CURL | CDatePicker =>
      Input.from_form self
  | CFile => File.from_form self
  | CTextarea => Textarea.from_form self
  | CWidget | CCheckbox | CSelect => from_form self
  end.

(** [Widget.get_value(self, form)] *)
Definition get_value (self : Widget) (form : Form) : outcome pyval :=
  value ← self_from_form self (AForm form);
  process_out self VForm value ∅.

(** [d.get(n, u'')] on the defaults of a form. *)
Definition default_get (d : pyval) (n : string) : outcome pyval :=
  match d with
  | VDict d => Ok (default (VStr "") (d !! n))
  | _ => Raise (AttributeError "object" "get")
  end.

(** The local variable [value] of [get_widget_value] and [to_form]: it is
    assigned only under [if ... .request is not None], so it is unbound
    ([None] here) when there is no request. *)
Definition request_value (r : option Request) (n : string) : option pyval :=
  match r with
  | Some r => Some (get_or_no_value (req_form r) n)
  | None => None
  end.

(** Reading the local [value] in [if value is no_value]. *)
Definition read_local (value : option pyval) : outcome pyval :=
  match value with
  | Some v => Ok v
  | None => Raise (UnboundLocalError "value")
  end.

(** [Widget.get_widget_value(self, form)] *)
Definition get_widget_value (self : Widget) (form : Form) : outcome pyval :=
  let n := name self in
  let value := request_value (form_request form) n in
  v ← read_local value;
  if is_no_value v then default_get (form_default form) n else Ok v.

(** The call [self.process_in(value, **attrs)]: the parameters [self] and
    [value] of [process_in] are bound by the call, so a keyword of either
    name is a second value for it, which Python refuses. *)
Definition call_process_in (self : Widget) (value : pyval)
    (attrs : gmap string pyval) : outcome pyval :=
  match attrs !! "self", attrs !! "value" with
  | None, None => process_in self value attrs
  | _, _ =>
      Raise (TypeError "process_in() got multiple values for keyword argument")
  end.

(** [Widget.to_form(self, ctx, **kw)] *)
Definition to_form (self : Widget) (ctx : RenderContext) : outcome pyval :=
  let n := name self in
  let value := request_value (rc_request ctx) n in
  v ← read_local value;
  value ← (if is_no_value v then default_get (rc_default ctx) n else Ok v);
  call_process_in self value (rc_attrs ctx).

End Widget.

#[export] Instance Error_eq_dec : EqDecision Error.
Proof. solve_decision. Defined.

Module Form.

(** [Form.__init__]: [self.data[widget.name] = widget] for the widgets of
    the class in order, and the defaults run through the form's incoming
    processors. *)
Definition init (widgets : list Widget)
    (processors_in processors_out : list processors.processor)
    (default : pyval) (request : option Request)
    (errors : gmap string Error) (ctx : gmap string pyval) : outcome Form :=
  let data := foldl (λ d widget, <[name widget := widget]> d) ∅ widgets in
  default ← processors.process default processors_in ctx;
  Ok {| form_default := default; form_request := request;
        form_errors := errors; form_data := data; form_ctx := ctx;
        form_processors_in := processors_in;
        form_processors_out := processors_out |}.

(** [Form.has_errors] *)
Definition has_errors (self : Form) : bool :=
  negb (bool_decide (form_errors self = ∅)).

(** The locals [result] and [errors] of [Form.process], with the names of
    the widgets whose [get_value] has been called so far. *)
Record locals := {
  attempted : list string;
  result : gmap string pyval;
  errors : gmap string Error
}.

Definition start : locals :=
  {| attempted := []; result := ∅; errors := ∅ |}.

(** The loop [for n, widget in self.data.items()] of [Form.process]: only
    [processors.Error] is caught; any other exception leaves the loop and
    is returned next to the locals reached. *)
Fixpoint loop (self : Form) (items : list (string * Widget)) (st : locals)
  : locals * option exn :=
  match items with
  | [] => (st, None)
  | (n, widget) :: items' =>
      let called := (attempted st ++ [n])%list in
      match Widget.get_value widget self with
      | Ok v =>
          loop self items'
            {| attempted := called; result := <[n := v]> (result st);
               errors := errors st |}
      | Raise (processors_Error e) =>
          loop self items'
            {| attempted := called; result := result st;
               errors := <[n := e]> (errors st) |}
      | Raise e =>
          ({| attempted := called; result := result st;
              errors := errors st |}, Some e)
      end
  end.

(** The loop over all widgets of the form. *)
Definition run_widgets (self : Form) : locals * option exn :=
  loop self (map_to_list (form_data self)) start.

(** [Form.process(self, obj=None, **kw)] *)
Definition process (self : Form) (obj : pyval) (kw : gmap string pyval)
  : outcome pyval :=
  let '(st, raised) := run_widgets self in
  match raised with
  | Some e => Raise e
  | None =>
      if (0 <? size (errors st))%nat then Raise (FormError (errors st))
      else
        let value := VDict {[ "obj" := obj; "formdata" := VDict (result st) ]} in
        processors.process value (form_processors_out self) kw
  end.

End Form.

(** ** Responses *)

(** What a handler returns and the application hands back: a response
    object, or an HTTP exception used as the response. *)
Inductive Response :=
| Resp (status : Z) (body : string) (set_cookie : gmap string string)
| ExcResponse (e : exn).

(** ** State and exceptions *)

(** Code that mutates an object and may raise: a function from the state
    before to the outcome and the state after.  A raised exception keeps the
    mutations made before it. *)
Section StateExn.
Context {S : Type}.

Definition st_ret {A} (a : A) : S → outcome A * S := λ s, (Ok a, s).

Definition st_bind {A B} (m : S → outcome A * S)
    (k : A → S → outcome B * S) : S → outcome B * S :=
  λ s, match m s with
       | (Ok a, s') => k a s'
       | (Raise e, s') => (Raise e, s')
       end.

Definition st_raise {A} (e : exn) : S → outcome A * S := λ s, (Raise e, s).

(** A call of pure code. *)
Definition st_lift {A} (o : outcome A) : S → outcome A * S := λ s, (o, s).

Definition st_modify (f : S → S) : S → outcome unit * S := λ s, (Ok tt, f s).

(** [try: m  except Exception, e: h e] *)
Definition st_try {A} (m : S → outcome A * S)
    (h : exn → S → outcome A * S) : S → outcome A * S :=
  λ s, match m s with
       | (Ok a, s') => (Ok a, s')
       | (Raise e, s') => h e s'
       end.
End StateExn.

Declare Scope st_scope.
Delimit Scope st_scope with st.
Notation "'let*' x ':=' m 'in' k" := (st_bind m (λ x, k))
  (at level 10, x pattern, m at level 100, k at level 200) : st_scope.
Notation "m ';;' k" := (st_bind m (λ _, k))
  (at level 100, k at level 200, right associativity) : st_scope.

(** ** handler.py *)

Module Handler.

(** A flash message: [{'msg': msg, ...}]. *)
Definition message : Type := gmap string string.

(** What [handle] does that can be observed: [decode_messages] is called,
    a line is logged, an attribute of the handler is called. *)
Inductive event :=
| Decode_messages
| Logged (line : string)
| Called (attr : string) (kwargs : gmap string string).

(** The mutable part of a handler instance, with the record of what
    [handle] did. *)
Record state := {
  messages_in : list message;
  messages_out : list message;
  trace : list event
}.

(** What [getattr(self, name)] finds: something callable (a method, which
    sees and may change the instance), or a plain value. *)
Inductive attribute :=
| Callable (f : gmap string string → state → outcome Response * state)
| Plain (v : pyval).

(** A handler instance: the arguments of [Handler.__init__] and the table
    of every attribute [hasattr] finds on it, by name.  [log] names a logger
    whose [debug] returns; the keyword arguments of [handle] hold byte
    strings. *)
Record Handler := {
  request : option Request;
  settings : gmap string string;
  log : option string;
  attrs : gmap string attribute
}.

Definition emit (ev : event) : state → outcome unit * state :=
  st_modify (λ s, {| messages_in := messages_in s;
                     messages_out := messages_out s;
                     trace := (trace s ++ [ev])%list |}).

Definition set_messages_in (ms : list message) : state → outcome unit * state :=
  st_modify (λ s, {| messages_in := ms; messages_out := messages_out s;
                     trace := trace s |}).

Section WithSecureCookie.
(** [SecureCookie.unserialize(string, secret_key)] of werkzeug, as the
    mapping it decodes to. *)
Variable unserialize : string → string → gmap string (list message).

(** [Handler.decode_messages(self, cookies)] *)
Definition decode_messages (self : Handler) (cookies : gmap string string)
    : outcome (list message) :=
  match cookies !! "m" with
  | Some c =>
      secret ← match settings self !! "cookie_secret" with
               | Some k => Ok k
               | None => Raise (AttributeError "settings" "cookie_secret")
               end;
      match unserialize c secret !! "msg" with
      | Some ms => Ok ms
      | None => Raise (KeyError "msg")
      end
  | None => Ok []
  end.

(** [self.log.debug("calling method %s on handler '%s' " % (...))] *)
Definition log_debug (self : Handler) (method : string)
    (m : gmap string string) : state → outcome unit * state :=
  match log self with
  | None => st_raise (AttributeError "NoneType" "debug")
  | Some _ =>
      match m !! "handler" with
      | None => st_raise (KeyError "handler")
      | Some h =>
          emit (Logged ("calling method " ++ method ++ " on handler '"
                        ++ h ++ "' "))
      end
  end.

(** [getattr(self, method)] called with the keyword arguments [m]. *)
Definition invoke (method : string) (a : attribute)
    (m : gmap string string) : state → outcome Response * state :=
  match a with
  | Callable f => (emit (Called method m);; f m)%st
  | Plain _ => st_raise (TypeError "object is not callable")
  end.

(** [Handler.handle], with its keyword arguments [m]. *)
Definition handle (self : Handler) (m : gmap string string)
    : state → outcome Response * state :=
  match request self with
  | None => st_raise (AttributeError "NoneType" "method")
  | Some request =>
      let method := Bytes (req_method request) in
      let method :=
        default method (Unicode <$> req_values request !! "method") in
      let method := text_lower method in
      (let* method := st_lift (attribute_name method) in
       match attrs self !! method with
       | Some a =>
           emit Decode_messages;;
           let* ms := st_lift (decode_messages self (req_cookies request)) in
           set_messages_in ms;;
           log_debug self (req_method request) m;;
           let m := delete "handler" m in
           invoke method a m
       | None => st_ret (ExcResponse MethodNotAllowed)
       end)%st
  end.
End WithSecureCookie.

End Handler.

(** ** app.py *)

(** The session interface of [starflyer/sessions.py], of which
    [Application] uses two operations.  [save_session] yields the response
    with the session written to its outgoing cookies. *)
Class SessionInterface (Session : Type) := {
  is_null_session : Session → bool;
  save_session : Session → Response → outcome Response
}.

Module Application.

(** A keyword argument of a handler call: a path parameter, or the
    exception an error handler is called with. *)
Inductive karg :=
| KStr (s : string)
| KExc (e : exn).

(** A key of [error_handlers]: a status code, or an exception class. *)
Inductive key :=
| Code (c : Z)
| Class (cls : string).

(** A log processor of logbook.  The application makes one: of the closure
    [inject] that [process_request] defines for its request. *)
Inductive Processor :=
| inject (request : Request).

(** The call of a processor on a log record.  The first statement of
    [inject] reads [handler_cls], a name that neither [process_request] nor
    the module binds. *)
Definition process_record (p : Processor) : outcome unit :=
  match p with
  | inject request => Raise (NameError "handler_cls")
  end.

(** A log record on its way through the processors in effect, the innermost
    first; what a processor raises is not caught. *)
Fixpoint process_records (context : list Processor) : outcome unit :=
  match context with
  | [] => Ok tt
  | p :: context' => _ ← process_record p; process_records context'
  end.

Section WithSession.
Context {Session : Type} `{SessionInterface Session}.

(** What the application needs of a handler: its class is called with
    the application and the request, the instance is called with keyword
    arguments and carries a session. *)
Record HandlerInstance := {
  call : gmap string karg → outcome Response;
  session : Session
}.

Record HandlerClass := {
  handler_name : string;
  new : Request → outcome HandlerInstance
}.

(** An application instance.  [url_match] is the bound URL map of
    werkzeug: the endpoint and the path parameters of the matching
    rule, or the routing exception.  [error_handlers] lists the items of
    the dictionary in the order in which [items()] yields them. *)
Record Application := {
  debug : bool;
  testing : bool;
  config_propagate_exceptions : option bool;
  url_match : Request → outcome (string * gmap string karg);
  handlers : gmap string HandlerClass;
  error_handlers : list (key * HandlerClass);
  before_first_request : Request → outcome unit;
  finalize_response : Response → outcome Response
}.

(** The calls the application makes: of the first-request hook, of a handler
    class, of an error handler instance, of [save_session] and of
    [logbook.exception]. *)
Inductive event :=
| Before_first_request (request : Request)
| Instantiated (handler_class : string)
| Called (handler_class : string) (kwargs : gmap string karg)
| Saved_session (s : Session) (response : Response)
| Logged_exception.

(** The mutable state of an application instance and the record of the
    calls it made. *)
Record state := {
  _got_first_request : bool;
  trace : list event
}.

(** The state [Application.__init__] leaves. *)
Definition initial : state :=
  {| _got_first_request := false; trace := [] |}.

Definition emit (ev : event) : state → outcome unit * state :=
  st_modify (λ s, {| _got_first_request := _got_first_request s;
                     trace := (trace s ++ [ev])%list |}).

Definition set_got_first_request (b : bool) : state → outcome unit * state :=
  st_modify (λ s, {| _got_first_request := b; trace := trace s |}).

(** [Application.propagate_exceptions] *)
Definition propagate_exceptions (self : Application) : bool :=
  match config_propagate_exceptions self with
  | Some rv => rv
  | None => testing self || debug self
  end.

(** [Application.check_first_request(self, request)] *)
Definition check_first_request (self : Application) (request : Request)
    : state → outcome unit * state :=
  λ s,
    if negb (_got_first_request s) then
      (emit (Before_first_request request);;
       st_lift (before_first_request self request);;
       set_got_first_request true)%st s
    else st_ret tt s.

(** [Application.raise_routing_exception(self, request, exception)] *)
Definition raise_routing_exception {A} (self : Application)
    (request : Request) (exception : exn) : state → outcome A * state :=
  if negb (debug self)
     || negb (isinstance exception "RequestRedirect")
     || bool_decide (req_method request ∈ ["GET"; "HEAD"; "OPTIONS"])
  then st_raise exception
  else st_raise (FormDataRoutingRedirect (req_method request)).

(** [Application.find_handler(self, request)]; the path parameters
    stored in [request.view_args] are returned with the handler. *)
Definition find_handler (self : Application) (request : Request)
    : state → outcome (HandlerInstance * gmap string karg) * state :=
  match url_match self request with
  | Raise e =>
      if isinstance e "HTTPException"
      then raise_routing_exception self request e
      else st_raise e
  | Ok (endpoint, view_args) =>
      match handlers self !! endpoint with
      | None => st_raise (KeyError endpoint)
      | Some handler_class =>
          (emit (Instantiated (handler_name handler_class));;
           let* handler := st_lift (new handler_class request) in
           st_ret (handler, view_args))%st
      end
  end.

(** [logbook.exception()] in an [except] clause, where the processors
    [context] are in effect.  On its way to the log handler that takes it
    (by default logbook has one for stderr set up) the record is handed to
    each of them, and what a processor raises is raised by the call. *)
Definition logbook_exception (context : list Processor)
    : state → outcome unit * state :=
  (st_lift (process_records context);; emit Logged_exception)%st.

(** [Application.call_error_handler(self, handler_class, request,
    **kwargs)], called where the log processors [context] are in effect. *)
Definition call_error_handler (context : list Processor) (self : Application)
    (handler_class : HandlerClass) (request : Request)
    (kwargs : gmap string karg) : state → outcome Response * state :=
  (emit (Instantiated (handler_name handler_class));;
   let* handler := st_lift (new handler_class request) in
   emit (Called (handler_name handler_class) kwargs);;
   st_try (st_lift (call handler kwargs))
     (λ e, logbook_exception context;;
           st_ret (ExcResponse (InternalServerError
             (Some "we got an exception in the error handler")))))%st.

(** [self.error_handlers[c]], if [c in self.error_handlers]. *)
Definition lookup_code (self : Application) (c : option Z)
    : option HandlerClass :=
  match c with
  | None => None
  | Some c =>
      snd <$> find (λ kh, match fst kh with
                          | Code c' => bool_decide (c' = c)
                          | Class _ => false
                          end) (error_handlers self)
  end.

(** [e.code]: the status of an HTTP exception, [None] in a class that
    derives from [HTTPException] and sets none. *)
Definition getattr_code (e : exn) : outcome (option Z) :=
  match e with
  | HTTPException _ status _ => Ok status
  | _ =>
      if isinstance e "HTTPException" then Ok None
      else Raise (AttributeError "exception" "code")
  end.

(** [Application.handle_http_exception(self, request, e)], called where
    the log processors [context] are in effect. *)
Definition handle_http_exception (context : list Processor)
    (self : Application) (request : Request) (e : exn)
    : state → outcome Response * state :=
  (let* c := st_lift (getattr_code e) in
   match lookup_code self c with
   | Some handler =>
       call_error_handler context self handler request
         {[ "exception" := KExc e ]}
   | None => st_ret (ExcResponse e)
   end)%st.

(** [Application.handle_user_exception(self, request, e)], called where
    the log processors [context] are in effect. *)
Definition handle_user_exception (context : list Processor)
    (self : Application) (request : Request) (e : exn)
    : state → outcome Response * state :=
  if isinstance e "HTTPException"
  then handle_http_exception context self request e
  else
    match find (λ kh, match fst kh with
                      | Class typecheck => isinstance e typecheck
                      | Code _ => false
                      end) (error_handlers self) with
    | Some (_, handler) =>
        call_error_handler context self handler request
          {[ "exception" := KExc e ]}
    | None => st_raise e
    end.

(** [Application.handle_exception(self, request, e)].  [__call__] calls it
    after [process_request] was left, where no processor of the application
    is in effect. *)
Definition handle_exception (self : Application) (request : Request)
    (e : exn) : state → outcome Response * state :=
  let handler := lookup_code self (Some 500) in
  if propagate_exceptions self then st_raise e
  else
    (logbook_exception [];;
     match handler with
     | None => st_ret (ExcResponse (InternalServerError None))
     | Some handler =>
         call_error_handler [] self handler request
           {[ "exception" := KExc e ]}
     end)%st.

(** The [try] block of [process_request]: the local [handler], which
    stays [None] unless [find_handler] returned, and the response from
    the handler or from [handle_user_exception]. *)
Definition respond (context : list Processor) (self : Application)
    (request : Request)
    : state → outcome (option HandlerInstance * Response) * state :=
  λ s,
    match find_handler self request s with
    | (Raise e, s1) =>
        (let* response := handle_user_exception context self request e in
         st_ret (None, response))%st s1
    | (Ok (handler, view_args), s1) =>
        (let* response :=
           st_try (st_lift (call handler view_args))
                  (handle_user_exception context self request) in
         st_ret (Some handler, response))%st s1
    end.

(** [if handler and not is_null_session(handler.session):
    self.save_session(handler.session, response)] *)
Definition persist (handler : option HandlerInstance) (response : Response)
    : state → outcome Response * state :=
  match handler with
  | Some handler =>
      if negb (is_null_session (session handler)) then
        (emit (Saved_session (session handler) response);;
         st_lift (save_session (session handler) response))%st
      else st_ret response
  | None => st_ret response
  end.

(** [Application.process_request(self, request)].  The [try] block is the
    body of [with logbook.Processor(inject)]: it runs with the processor of
    the closure [inject] in effect. *)
Definition process_request (self : Application) (request : Request)
    : state → outcome Response * state :=
  (check_first_request self request;;
   let context := [inject request] in
   let* hr := respond context self request in
   let* response := persist (fst hr) (snd hr) in
   st_lift (finalize_response self response))%st.

(** [Application.__call__(self, environ, start_response)], up to the
    response object that is then run as a WSGI application. *)
Definition __call__ (self : Application) (request : Request)
    : state → outcome Response * state :=
  st_try (process_request self request) (handle_exception self request).

(** [Application.run_request], for the request the options build. *)
Definition run_request (self : Application) (request : Request)
    : state → outcome Response * state :=
  process_request self request.

(** A sequence of requests processed by one application instance. *)
Definition run_requests (self : Application) (requests : list Request)
    (s : state) : state :=
  foldl (λ s request, snd (process_request self request s)) s requests.

(** The requests the first-request hook was called with. *)
Definition hook_calls (s : state) : list Request :=
  omap (λ ev, match ev with
              | Before_first_request r => Some r
              | _ => None
              end) (trace s).

(** The calls of [save_session]. *)
Definition saved_sessions (s : state) : list (Session * Response) :=
  omap (λ ev, match ev with
              | Saved_session x r => Some (x, r)
              | _ => None
              end) (trace s).

End WithSession.

End Application.

(** ** Reading outcomes *)

(** The validation failure an outcome carries, if it is one. *)
Definition error_of {A} (o : outcome A) : option Error :=
  match o with Raise (processors_Error e) => Some e | _ => None end.

(** The value an outcome carries, if it is one. *)
Definition value_of {A} (o : outcome A) : option A :=
  match o with Ok v => Some v | Raise _ => None end.

(** An outcome that is a value or a validation failure: the two outcomes
    the loop of [Form.process] goes on after. *)
Definition validation_only {A} (o : outcome A) : bool :=
  match o with Ok _ | Raise (processors_Error _) => true | Raise _ => false end.

(** The value [Form.process] hands to the form-level processors. *)
Definition envelope (obj : pyval) (formdata : gmap string pyval) : pyval :=
  VDict {[ "obj" := obj; "formdata" := VDict formdata ]}.

(** ** Classes of widgets *)

(** The classes whose [from_form] is that of [Input] or of [Textarea]. *)
Definition text_input (c : widget_class) : bool :=
  match c with
  | CInput | CText | CPassword | CEmail | CURL | CDatePicker | CTextarea => true
  | _ => false
  end.

(** The classes whose [from_form] is that of [Widget]. *)
Definition plain_widget (c : widget_class) : bool :=
  match c with CWidget | CCheckbox | CSelect => true | _ => false end.

(** The error [from_form] raises for a required field. *)
Definition required_error (m : string) : exn :=
  processors_Error (mkError "required" m).

(** ** Reading the record of an application *)

Import Application.
#[local] Arguments lookup_code : simpl never.

(** Events other than a call of the first-request hook. *)
Definition not_hook {Session : Type} (ev : event (Session := Session)) : bool :=
  match ev with Before_first_request _ => false | _ => true end.

(** Events that are neither a call of the hook nor a saved session. *)
Definition quiet {Session : Type} (ev : event (Session := Session)) : bool :=
  match ev with
  | Before_first_request _ | Saved_session _ _ => false
  | _ => true
  end.

(** A step that leaves [_got_first_request] alone and records only events
    that satisfy [P]. *)
Definition appends {Session A : Type} (P : event (Session := Session) → bool)
    (m : state → outcome A * state) : Prop :=
  ∀ s, ∃ evs,
    (m s).2 = {| _got_first_request := _got_first_request s;
                 trace := (trace s ++ evs)%list |}
    ∧ forallb P evs = true.

(** The state after an error handler was instantiated and called. *)
Definition after_call {Session : Type}
    (handler_class : HandlerClass (Session := Session))
    (kwargs : gmap string karg) (st : state (Session := Session))
    (more : list event) : state :=
  {| _got_first_request := _got_first_request st;
     trace := (trace st ++ [Instantiated (handler_name handler_class);
                            Called (handler_name handler_class) kwargs]
               ++ more)%list |}.

(** The response for a failing error handler. *)
Definition handler_failed : Response :=
  ExcResponse (HTTPException "InternalServerError" (Some 500)
                 (Some "we got an exception in the error handler")).

(** The state after the hook was called with [r]. *)
Definition hook_called {Session : Type} (r : Request) (got : bool)
    (st : state (Session := Session)) : state :=
  {| _got_first_request := got;
     trace := (trace st ++ [Before_first_request r])%list |}.

(** The state after [save_session] was called. *)
Definition session_saved {Session : Type}
    (handler : HandlerInstance (Session := Session)) (response : Response)
    (st : state (Session := Session)) : state :=
  {| _got_first_request := _got_first_request st;
     trace := (trace st ++ [Saved_session (session handler) response])%list |}.

(** The response of the [try] block of [process_request] for a handler that
    was built: what the handler returns, or what [handle_user_exception]
    makes of the exception it raises. *)
Definition handler_response {Session : Type} (context : list Processor)
    (self : Application (Session := Session)) (request : Request)
    (handler : HandlerInstance (Session := Session))
    (view_args : gmap string karg)
    : state (Session := Session) → outcome Response * state :=
  st_try (st_lift (call handler view_args))
    (handle_user_exception context self request).

(** The requests of a sequence up to and with the first one on which the
    hook returns. *)
Fixpoint until_hook_returns (hook : Request → outcome unit)
    (requests : list Request) : list Request :=
  match requests with
  | [] => []
  | r :: requests' =>
      r :: match hook r with
           | Ok _ => []
           | Raise _ => until_hook_returns hook requests'
           end
  end.

(** ** Sample forms *)

(** Two plain widgets, both required. *)
Definition title_widget : Widget :=
  {| cls := CWidget; name := "title"; required := true;
     messages := default_messages; processors_out := []; processors_in := [] |}.

Definition body_widget : Widget :=
  {| cls := CCheckbox; name := "body"; required := true;
     messages := default_messages; processors_out := []; processors_in := [] |}.

Definition two_widgets : gmap string Widget :=
  {[ "title" := title_widget; "body" := body_widget ]}.

(** A required text input. *)
Definition email_widget : Widget :=
  {| cls := CEmail; name := "email"; required := true;
     messages := default_messages; processors_out := []; processors_in := [] |}.

(** A second required text input. *)
Definition name_widget : Widget :=
  {| cls := CText; name := "name"; required := true;
     messages := default_messages; processors_out := []; processors_in := [] |}.

(** A form of the given widgets, without defaults or processors. *)
Definition form_of (widgets : gmap string Widget) (r : option Request) : Form :=
  {| form_default := VDict ∅; form_request := r; form_errors := ∅;
     form_data := widgets; form_ctx := ∅;
     form_processors_in := []; form_processors_out := [] |}.

(** The submission of a form with the given fields. *)
Definition submit (fields : gmap string string) : Request :=
  {| req_method := "POST"; req_form := fields;
     req_files := ∅; req_values := ∅; req_cookies := ∅ |}.

(** The two text inputs, submitted empty. *)
Definition empty_contact : Request := submit {[ "email" := ""; "name" := "" ]}.

Definition contact_form : Form :=
  form_of {[ "email" := email_widget; "name" := name_widget ]}
    (Some empty_contact).

(** A submission that carries the body and no title. *)
Definition body_only : Request := submit {[ "body" := "hello" ]}.

(** A submission with both fields. *)
Definition both_fields : Request :=
  submit {[ "title" := "A title"; "body" := "hello" ]}.

(** A submission with an empty title. *)
Definition empty_title : Request :=
  submit {[ "title" := ""; "body" := "hello" ]}.

(** A submission with an empty e-mail address. *)
Definition empty_email : Request := submit {[ "email" := "" ]}.

(** The submitted form, with a context attribute named [value]. *)
Definition value_in_context : Form :=
  {| form_default := VDict ∅; form_request := Some both_fields;
     form_errors := ∅; form_data := two_widgets;
     form_ctx := {[ "value" := VStr "x" ]};
     form_processors_in := []; form_processors_out := [] |}.

(** A form with the request [Form.__init__] defaults to, none, and a default
    for the title. *)
Definition unsubmitted : Form :=
  {| form_default := VDict {[ "title" := VStr "Untitled" ]};
     form_request := None; form_errors := ∅;
     form_data := two_widgets; form_ctx := ∅;
     form_processors_in := []; form_processors_out := [] |}.

(** ** Sample handlers *)

Definition ok_response (body : string) : Response := Resp 200 body ∅.

(** A handler with the methods [get] and [post] and the class attribute
    [template]. *)
Definition get_post_handler (r : Request) : Handler.Handler :=
  {| Handler.request := Some r; Handler.settings := ∅;
     Handler.log := Some "starflyer";
     Handler.attrs :=
       {[ "get" := Handler.Callable (λ _ s, (Ok (ok_response "shown"), s));
          "post" := Handler.Callable (λ _ s, (Ok (ok_response "stored"), s));
          "template" := Handler.Plain (VStr "") ]} |}.

(** A POST request whose values ask for [method]. *)
Definition post_as (method : string) : Request :=
  {| req_method := "POST"; req_form := ∅; req_files := ∅;
     req_values := {[ "method" := method ]}; req_cookies := ∅ |}.



(** A handler instance as [Handler.__init__] leaves it. *)
Definition fresh : Handler.state :=
  {| Handler.messages_in := []; Handler.messages_out := [];
     Handler.trace := [] |}.

(** ** Sample applications *)

(** Sessions as an optional cookie payload; [None] is the null session, and
    saving writes the payload to the cookie [s] of a response object. *)
#[export] Instance cookie_sessions : SessionInterface (option string) := {
  is_null_session s := bool_decide (s = None);
  save_session s response :=
    match response with
    | Resp status body cookies =>
        Ok (Resp status body (<["s" := default "" s]> cookies))
    | ExcResponse e => Raise (AttributeError "HTTPException" "set_cookie")
    end
}.

(** A handler class whose instances answer every call with [response]. *)
Definition answering {Session : Type} (cls : string) (response : Response)
    (s : Session) : HandlerClass :=
  {| handler_name := cls;
     new := λ _, Ok {| call := λ _, Ok response; session := s |} |}.

(** A handler class whose instances raise [e] on every call. *)
Definition failing {Session : Type} (cls : string) (e : exn) (s : Session)
    : HandlerClass :=
  {| handler_name := cls;
     new := λ _, Ok {| call := λ _, Raise e; session := s |} |}.

Definition get_request : Request :=
  {| req_method := "GET"; req_form := ∅; req_files := ∅; req_values := ∅;
     req_cookies := ∅ |}.

Definition post_request : Request := post_as "POST".

(** An application with the given routing, error handlers and hook. *)
Definition application_of
    (url_match : Request → outcome (string * gmap string karg))
    (handlers : gmap string HandlerClass)
    (error_handlers : list (key * HandlerClass))
    (hook : Request → outcome unit) : Application (Session := option string) :=
  {| debug := false; testing := false; config_propagate_exceptions := None;
     url_match := url_match; handlers := handlers;
     error_handlers := error_handlers;
     before_first_request := hook;
     finalize_response := Ok |}.

(** An application without routes, handlers or hooks of its own. *)
Definition bare_application : Application (Session := option string) :=
  application_of (λ _, Raise NotFound) ∅ [] (λ _, Ok tt).

(** An application whose only registration is a handler for 404. *)
Definition with_not_found_page : Application (Session := option string) :=
  application_of (λ _, Raise NotFound) ∅
    [(Code 404, answering "NotFoundPage" (Resp 404 "nothing here" ∅) None)]
    (λ _, Ok tt).

(** The instances of [failing]. *)
Definition failing_instance (e : exn)
    : HandlerInstance (Session := option string) :=
  {| call := λ _, Raise e; session := None |}.

(** A handler class for 404 whose instances raise [KeyError]. *)
Definition not_found_failing : HandlerClass (Session := option string) :=
  failing "NotFoundPage" (KeyError "user") None.

(** An application without routes, with that handler for 404 and a handler
    for 500. *)
Definition failing_pages : Application (Session := option string) :=
  application_of (λ _, Raise NotFound) ∅
    [(Code 404, not_found_failing);
     (Code 500, answering "ServerError" (Resp 500 "error" ∅) None)]
    (λ _, Ok tt).

(** An application whose hook raises on every request but a GET. *)
Definition get_only_hook : Application (Session := option string) :=
  application_of (λ _, Raise NotFound) ∅ []
    (λ r, if String.eqb (req_method r) "GET" then Ok tt
          else Raise (UserException ["RuntimeError"] "not ready")).

(** An application whose hook raises on every request. *)
Definition raising_hook : Application (Session := option string) :=
  application_of (λ _, Raise NotFound) ∅ []
    (λ _, Raise (UserException ["RuntimeError"] "not ready")).

(** An application with one route, to a handler whose session is [s]. *)
Definition one_route (s : option string)
    : Application (Session := option string) :=
  application_of (λ _, Ok ("index", ∅))
    {[ "index" := answering "Index" (ok_response "hi") s ]} [] (λ _, Ok tt).

(** The instance that route builds. *)
Definition index_handler (s : option string)
    : HandlerInstance (Session := option string) :=
  {| call := λ _, Ok (ok_response "hi"); session := s |}.

(** The state of [one_route] once the handler of a first request is built. *)
Definition routed : state (Session := option string) :=
  {| _got_first_request := true;
     trace := [Before_first_request get_request; Instantiated "Index"] |}.

(** ** More of the strings *)

(** Every character of [s] is white space. *)
Fixpoint all_space (s : string) : bool :=
  match s with
  | EmptyString => true
  | String c s' => isspace c && all_space s'
  end.

(** [s.startswith(p)] *)
Definition startswith (s p : string) : bool := String.prefix p s.

(** [s.endswith(p)] *)
Definition endswith (s p : string) : bool :=
  String.prefix (String.rev p) (String.rev s).

(** [s[:-1]] *)
Definition but_last (s : string) : string :=
  String.substring 0 (String.length s - 1) s.

(** ** app.py: the set-up of an application *)

Module Setup.

(** A configuration value. *)
Inductive setting :=
| SNone
| SBool (b : bool)
| SInt (n : Z)
| SStr (s : string)
| STimedelta (days : Z).

(** The class attribute [Application.enforced_defaults]. *)
Definition enforced_defaults : gmap string setting :=
  list_to_map
    [("session_cookie_name", SStr "s");
     ("secret_key", SNone);
     ("permanent_session_lifetime", STimedelta 31);
     ("session_cookie_domain", SNone);
     ("session_cookie_path", SNone);
     ("session_cookie_httponly", SBool true);
     ("session_cookie_secure", SBool false);
     ("preferred_url_scheme", SStr "http");
     ("logger_name", SNone);
     ("server_name", SNone);
     ("application_root", SNone);
     ("propagate_exceptions", SNone);
     ("debug", SBool false);
     ("testing", SBool false);
     ("static_cache_timeout", SInt (12 * 60 * 60))].

(** The configuration [Application.__init__] builds: a mapping that starts
    as a copy of [enforced_defaults] and is updated with the class attribute
    [defaults], with the argument [config] and with the keyword arguments,
    in this order; an update overwrites the keys it carries. *)
Definition init_config (defaults config kw : gmap string setting)
    : gmap string setting :=
  kw ∪ (config ∪ (defaults ∪ enforced_defaults)).

(** The clean-up of [static_url_path] in [Application.__init__]: one
    trailing slash is removed, a leading slash is added when missing. *)
Definition clean_static_url_path (static_url_path : string) : string :=
  let sup := static_url_path in
  let sup := if endswith sup "/" then but_last sup else sup in
  if negb (startswith sup "/") then "/" ++ sup else sup.

(** The path of the rule for static files. *)
Definition static_rule_path (static_url_path : string) : string :=
  clean_static_url_path static_url_path ++ "/<path:filename>".

(** [x or None] for an optional entry of the options. *)
Definition truthy (v : pyval) : bool :=
  match v with
  | VNone => false
  | VStr s => negb (String.eqb s "")
  | VDict d => negb (bool_decide (d = ∅))
  | _ => true
  end.

Section WithRules.
Context {Session : Type}.

(** [url_rule_class(path, options)], the rule class of werkzeug, which may
    refuse the path or the options. *)
Context {rule : Type}.
Variable url_rule_class : string → gmap string pyval → outcome rule.

(** The two attributes [add_url_rule] writes: the rules of [url_map] in the
    order they were added, and [handlers]. *)
Record routing := {
  url_map : list rule;
  handlers : gmap string (HandlerClass (Session := Session))
}.

(** What [Application.__init__] starts from. *)
Definition empty : routing := {| url_map := []; handlers := ∅ |}.

(** An entry of the class attribute [routes]: an instance of [URL]. *)
Record URL := {
  path : string;
  endpoint : option string;
  handler : option (HandlerClass (Session := Session));
  options : gmap string pyval
}.

(** The options [add_url_rule] passes to the rule class. *)
Definition rule_options (endpoint : string) (options : gmap string pyval)
    : gmap string pyval :=
  let options := <["endpoint" := VStr endpoint]> options in
  <["defaults" := match options !! "defaults" with
                  | Some d => if truthy d then d else VNone
                  | None => VNone
                  end]> options.

(** [Application.add_url_rule(self, path, endpoint, handler, options)] *)
Definition add_url_rule (self : routing) (route : URL) : outcome routing :=
  endpoint ← match endpoint route with
             | Some endpoint => Ok endpoint
             | None =>
                 match handler route with
                 | Some handler => Ok (handler_name handler)
                 | None =>
                     Raise (UserException ["AssertionError"; "StandardError"]
                              "handler and endpoint not provided")
                 end
             end;
  rule ← url_rule_class (path route) (rule_options endpoint (options route));
  Ok {| url_map := (url_map self ++ [rule])%list;
        handlers := match handler route with
                    | Some handler => <[endpoint := handler]> (handlers self)
                    | None => handlers self
                    end |}.

(** The loop [for route in self.routes] of [Application.__init__]. *)
Fixpoint add_routes (self : routing) (routes : list URL) : outcome routing :=
  match routes with
  | [] => Ok self
  | route :: routes' =>
      self ← add_url_rule self route; add_routes self routes'
  end.

(** The routing part of [Application.__init__], up to the call of the hook
    [finalize_setup]: the routes of the class, then the rule for static
    files. *)
Definition init_routes (routes : list URL) (static_url_path : string)
    (StaticFileHandler : HandlerClass (Session := Session)) : outcome routing :=
  self ← add_routes empty routes;
  add_url_rule self
    {| path := static_rule_path static_url_path;
       endpoint := Some "static";
       handler := Some StaticFileHandler;
       options := ∅ |}.

(** The endpoint a route is stored under. *)
Definition endpoint_of (route : URL) : option string :=
  match endpoint route with
  | Some endpoint => Some endpoint
  | None => handler_name <$> handler route
  end.
End WithRules.

End Setup.

(** ** handler.py: flash messages *)

Module Flash.

(** The two message lists of a handler.  [Handler.__init__] binds both
    attributes to one list object ([self.messages_out = self.messages_in =
    []]), so that an [append] through one shows through the other until one
    of the attributes is bound again. *)
Inductive messages :=
| Shared (l : list Handler.message)
| Separate (messages_in messages_out : list Handler.message).

(** [self.messages_in] *)
Definition messages_in (s : messages) : list Handler.message :=
  match s with Shared l => l | Separate i _ => i end.

(** [self.messages_out] *)
Definition messages_out (s : messages) : list Handler.message :=
  match s with Shared l => l | Separate _ o => o end.

(** The lists [Handler.__init__] leaves. *)
Definition init : messages := Shared [].

(** [self.messages_in = ms], for a list [ms] no attribute names yet: what
    [Handler.handle] does with the decoded messages. *)
Definition set_messages_in (ms : list Handler.message) (s : messages)
    : messages :=
  Separate ms (messages_out s).

(** [self.messages_out = []] *)
Definition clear_messages_out (s : messages) : messages :=
  Separate (messages_in s) [].



(** A value handed to a template. *)
Inductive template_value :=
| TValue (v : pyval)
| TMessages (l : list Handler.message).

Section WithTemplates.
(** [self.settings.templates.get_template(tmplname)] and the [render] of the
    template it finds, by jinja2. *)
Variable get_template :
  string → outcome (gmap string template_value → outcome string).

(** The hook [prepare_render], which a handler class may override. *)
Variable prepare_render :
  gmap string template_value → outcome (gmap string template_value).

(** The first part of [Handler.render]: the data for the template, and the
    outgoing messages bound to a new empty list. *)
Definition render_data (values errors : pyval)
    (kwargs : gmap string template_value)
    : messages → outcome (gmap string template_value) * messages :=
  (let* data := st_lift (prepare_render kwargs) in
   let data := <["values" := TValue values]> data in
   let data := <["errors" := TValue errors]> data in
   let* data := (λ s, (Ok (<["flash_messages" :=
                               TMessages (messages_in s ++ messages_out s)]>
                             data), s)) in
   st_modify clear_messages_out;;
   st_ret data)%st.

(** [Handler.render(self, tmplname, values, errors, kwargs)], for a handler
    class with the default template [template]. *)
Definition render (template : string) (tmplname : option string)
    (values errors : pyval) (kwargs : gmap string template_value)
    : messages → outcome string * messages :=
  let tmplname := default template tmplname in
  (let* data := render_data values errors kwargs in
   let* tmpl := st_lift (get_template tmplname) in
   st_lift (tmpl data))%st.
End WithTemplates.

Section WithSecureCookie.
(** [SecureCookie(data, secret_key).serialize()] of werkzeug. *)
Variable serialize : gmap string (list Handler.message) → string → string.

(** [Handler.encode_messages(self, messages)] *)
Definition encode_messages (self : Handler.Handler)
    (ms : list Handler.message) : outcome string :=
  match Handler.settings self !! "cookie_secret" with
  | Some secret => Ok (serialize {[ "msg" := ms ]} secret)
  | None => Raise (AttributeError "settings" "cookie_secret")
  end.
End WithSecureCookie.

End Flash.

(** ** More samples *)

(** The exceptions of the form layer: validation failures, and the lookups
    that fail on the way to the submitted data. *)
Definition form_exception (e : exn) : Prop :=
  match e with
  | processors_Error _ | KeyError _ | AttributeError _ _ => True
  | _ => False
  end.

(** A form of one required e-mail input, submitted with an address. *)
Definition email_form : Form :=
  form_of {[ "email" := email_widget ]}
    (Some (submit {[ "email" := "someone@example.org" ]})).

(** A text input that is not required. *)
Definition nickname_widget : Widget :=
  {| cls := CText; name := "nickname"; required := false;
     messages := default_messages; processors_out := []; processors_in := [] |}.

(** The dictionary [Form.__init__] fills. *)
Definition store (d : gmap string Widget) (widgets : list Widget)
    : gmap string Widget :=
  foldl (λ d widget, <[name widget := widget]> d) d widgets.

(** A second widget named [title]. *)
Definition title_select : Widget :=
  {| cls := CSelect; name := "title"; required := false;
     messages := default_messages; processors_out := []; processors_in := [] |}.

(** A handler built the way the application builds it, without a logger. *)
Definition unlogged_handler (r : Request) : Handler.Handler :=
  {| Handler.request := Some r; Handler.settings := ∅; Handler.log := None;
     Handler.attrs := Handler.attrs (get_post_handler r) |}.

(** A handler with a cookie secret, and a secure cookie that holds one
    message. *)
Definition keyed_handler : Handler.Handler :=
  {| Handler.request := Some get_request;
     Handler.settings := {[ "cookie_secret" := "k" ]};
     Handler.log := Some "starflyer"; Handler.attrs := ∅ |}.

Definition saved_message : Handler.message := {[ "msg" := "saved" ]}.

(** The data [render] hands to the template. *)
Definition template_data (values errors : pyval)
    (data : gmap string Flash.template_value) (s : Flash.messages)
    : gmap string Flash.template_value :=
  <["flash_messages" :=
      Flash.TMessages (Flash.messages_in s ++ Flash.messages_out s)]>
    (<["errors" := Flash.TValue errors]>
       (<["values" := Flash.TValue values]> data)).

(** A route that brings a handler for the endpoint [ep]. *)
Definition brings_handler {Session : Type}
    (route : Setup.URL (Session := Session)) (ep : string) : Prop :=
  Setup.endpoint_of route = Some ep ∧ is_Some (Setup.handler route).

(** Two routes under the endpoint [index], and a route under [static]. *)
Definition index_routes : list (Setup.URL (Session := option string)) :=
  [ {| Setup.path := "/"; Setup.endpoint := Some "index";
       Setup.handler := Some (answering "Index" (ok_response "hi") None);
       Setup.options := ∅ |};
    {| Setup.path := "/home"; Setup.endpoint := Some "index";
       Setup.handler := Some (answering "Home" (ok_response "home") None);
       Setup.options := ∅ |};
    {| Setup.path := "/assets"; Setup.endpoint := Some "static";
       Setup.handler := Some (answering "Assets" (ok_response "css") None);
       Setup.options := ∅ |} ].

(** A rule class that accepts every rule and keeps its path. *)
Definition path_rule (path : string) (options : gmap string pyval)
    : outcome string :=
  Ok path.


(** An application whose only error handler is registered for
    [Exception]. *)
Definition catch_all : Application (Session := option string) :=
  application_of (λ _, Raise NotFound) ∅
    [(Class "Exception", answering "Oops" (Resp 500 "oops" ∅) None)]
    (λ _, Ok tt).


(** An application whose hook raises and whose handler for 500 raises. *)
Definition all_failing : Application (Session := option string) :=
  application_of (λ _, Raise NotFound) ∅
    [(Code 500, failing "ServerError" (TypeError "no template") None)]
    (λ _, Raise (UserException ["RuntimeError"] "not ready")).

(** The failing application, in debug mode. *)
Definition all_failing_debug : Application (Session := option string) :=
  {| debug := true; testing := false; config_propagate_exceptions := None;
     url_match := url_match all_failing; handlers := handlers all_failing;
     error_handlers := error_handlers all_failing;
     before_first_request := before_first_request all_failing;
     finalize_response := Ok |}.

(** An application in debug mode whose URL map redirects every request. *)
Definition redirecting : Application (Session := option string) :=
  {| debug := true; testing := false; config_propagate_exceptions := None;
     url_match := λ _, Raise (RequestRedirect "/home/");
     handlers := ∅; error_handlers := [];
     before_first_request := λ _, Ok tt;
     finalize_response := Ok |}.

(** The application of the routes [index_routes], with a URL map that
    matches every request with the endpoint [index]. *)
Definition index_application (hs : gmap string HandlerClass)
    : Application (Session := option string) :=
  application_of (λ _, Ok ("index", ∅)) hs [] (λ _, Ok tt).

(** An application with one route, to a handler with a session whose call
    raises [NotFound]. *)
Definition aborting : Application (Session := option string) :=
  application_of (λ _, Ok ("index", ∅))
    {[ "index" := failing "Index" NotFound (Some "user=7") ]} [] (λ _, Ok tt).

(** * Properties *)

(** ** The processor chain *)

Lemma process_nil data kw : processors.process data [] kw = Ok data.
Proof. reflexivity. Qed.

(** A chain raises nothing but [processors.Error]. *)
Lemma process_validation_only data ps kw :
  validation_only (processors.process data ps kw) = true.
Proof.
  revert data. induction ps as [|p ps IH]; intros data; simpl; [done|].
  destruct (p data kw); [done | apply IH].
Qed.

Lemma process_not_FormError data ps kw errs :
  processors.process data ps kw ≠ Raise (FormError errs).
Proof.
  intros E. pose proof (process_validation_only data ps kw) as V.
  rewrite E in V. discriminate.
Qed.

(** ** The loop of [Form.process] *)

Section FormLoop.
Variable f : Form.

(** For the widget stored under [n], what the loop leaves under [n]. *)
Lemma loop_spec items : ∀ st,
  NoDup items.*1 →
  Forall (λ nw, validation_only (Widget.get_value nw.2 f) = true) items →
  ∃ st', Form.loop f items st = (st', None)
    ∧ Form.attempted st' = (Form.attempted st ++ items.*1)%list
    ∧ (∀ k, Form.errors st' !! k =
             match (list_to_map items : gmap string Widget) !! k with
             | Some w =>
                 match Widget.get_value w f with
                 | Raise (processors_Error e) => Some e
                 | _ => Form.errors st !! k
                 end
             | None => Form.errors st !! k
             end)
    ∧ (∀ k, Form.result st' !! k =
             match (list_to_map items : gmap string Widget) !! k with
             | Some w =>
                 match Widget.get_value w f with
                 | Ok v => Some v
                 | _ => Form.result st !! k
                 end
             | None => Form.result st !! k
             end).
Proof.
  induction items as [|[n w] items IH]; intros st ND HV.
  - exists st. simpl. rewrite app_nil_r. repeat split; intros k;
      by rewrite lookup_empty.
  - simpl in ND. apply NoDup_cons in ND as [Hn ND].
    apply Forall_cons in HV as [Hw HV]. simpl in Hw.
    assert (Hnone : (list_to_map items : gmap string Widget) !! n = None)
      by (by apply not_elem_of_list_to_map).
    simpl Form.loop.
    destruct (Widget.get_value w f) as [v|e] eqn:G.
    + destruct (IH {| Form.attempted := (Form.attempted st ++ [n])%list;
                      Form.result := <[n:=v]> (Form.result st);
                      Form.errors := Form.errors st |} ND HV)
        as (st' & L & A & E & R).
      exists st'. simpl in *. rewrite L, A, <- app_assoc.
      repeat split; intros k.
      * rewrite E. destruct (decide (n = k)) as [->|Hne].
        -- by rewrite Hnone, lookup_insert_eq, G.
        -- by rewrite lookup_insert_ne.
      * rewrite R. destruct (decide (n = k)) as [->|Hne].
        -- by rewrite Hnone, !lookup_insert_eq, G.
        -- by rewrite !lookup_insert_ne.
    + destruct e as [e| | | | | | | | | |]; try discriminate Hw.
      destruct (IH {| Form.attempted := (Form.attempted st ++ [n])%list;
                      Form.result := Form.result st;
                      Form.errors := <[n:=e]> (Form.errors st) |} ND HV)
        as (st' & L & A & E & R).
      exists st'. simpl in *. rewrite L, A, <- app_assoc.
      repeat split; intros k.
      * rewrite E. destruct (decide (n = k)) as [->|Hne].
        -- by rewrite Hnone, !lookup_insert_eq, G.
        -- by rewrite !lookup_insert_ne.
      * rewrite R. destruct (decide (n = k)) as [->|Hne].
        -- by rewrite Hnone, lookup_insert_eq, G.
        -- by rewrite lookup_insert_ne.
Qed.

(** A name once called stays in the record. *)
Lemma loop_keeps_attempted items : ∀ st x,
  x ∈ Form.attempted st → x ∈ Form.attempted (Form.loop f items st).1.
Proof.
  induction items as [|[n w] items IH]; intros st x Hx; [done|].
  simpl. destruct (Widget.get_value w f) as [v|[e| | | | | | | | | |]];
    try (apply IH); simpl; apply elem_of_app; by left.
Qed.

(** The loop reaches a widget whenever the widgets before it raised nothing
    but validation failures. *)
Lemma loop_reaches pre : ∀ st n w post,
  Forall (λ nw, validation_only (Widget.get_value nw.2 f) = true) pre →
  n ∈ Form.attempted (Form.loop f (pre ++ (n, w) :: post) st).1.
Proof.
  induction pre as [|[m w'] pre IH]; intros st n w post HV.
  - simpl. destruct (Widget.get_value w f) as [v|[e| | | | | | | | | |]];
      try (apply loop_keeps_attempted); simpl; apply elem_of_app; right;
      apply list_elem_of_singleton; done.
  - apply Forall_cons in HV as [Hw HV]. simpl in Hw. simpl.
    destruct (Widget.get_value w' f) as [v|[e| | | | | | | | | |]];
      try discriminate Hw; by apply IH.
Qed.

(** When no widget raises anything but a validation failure, the loop
    runs over every widget and leaves the failures and the values by
    name. *)
Lemma run_widgets_spec :
  (∀ n w, form_data f !! n = Some w →
          validation_only (Widget.get_value w f) = true) →
  ∃ st, Form.run_widgets f = (st, None)
    ∧ Form.attempted st = (map_to_list (form_data f)).*1
    ∧ (∀ k, Form.errors st !! k =
            form_data f !! k ≫= λ w, error_of (Widget.get_value w f))
    ∧ (∀ k, Form.result st !! k =
            form_data f !! k ≫= λ w, value_of (Widget.get_value w f)).
Proof.
  intros HV. unfold Form.run_widgets.
  destruct (loop_spec (map_to_list (form_data f)) Form.start)
    as (st & L & A & E & R).
  - apply NoDup_fst_map_to_list.
  - apply Forall_forall. intros [n w] Hin. simpl.
    apply elem_of_map_to_list in Hin. eauto.
  - exists st. rewrite list_to_map_to_list in E, R.
    repeat split; [done..| |]; intros k.
    + rewrite E. simpl. rewrite lookup_empty.
      destruct (form_data f !! k) as [w|]; simpl; [|done].
      by destruct (Widget.get_value w f) as [|[]].
    + rewrite R. simpl. rewrite lookup_empty.
      destruct (form_data f !! k) as [w|]; simpl; [|done].
      by destruct (Widget.get_value w f) as [|[]].
Qed.
End FormLoop.

(** ** [Form.process] *)

(** A statement about every widget of a concrete form, by running through
    the entries of its dictionary. *)
Ltac each_widget H :=
  apply elem_of_map_to_list in H; vm_compute in H;
  repeat (apply elem_of_cons in H as [H|H];
          [injection H as -> ->; vm_compute; eauto|]);
  by apply elem_of_nil in H.

(** C1 at a form of two required text inputs, submitted with both fields
    empty. Read from the request, [from_form] of either widget raises the
    [required] failure that was to be collected. [get_value] hands
    [from_form] the form instead, where [request.form] is a lookup of the
    widget [form] and raises [KeyError]; [Form.process] catches validation
    failures alone, so the [KeyError] of the first widget leaves the loop:
    the other widget is never evaluated, no failure is collected and no
    [FormError] is raised. *)
Theorem process_stops_at_a_text_input :
  Widget.self_from_form email_widget (ARequest empty_contact)
  = Raise (required_error "This field is required")
  ∧ Widget.self_from_form name_widget (ARequest empty_contact)
    = Raise (required_error "This field is required")
  ∧ Widget.get_value email_widget contact_form = Raise (KeyError "form")
  ∧ Widget.get_value name_widget contact_form = Raise (KeyError "form")
  ∧ size (form_data contact_form) = 2%nat
  ∧ length (Form.attempted (Form.run_widgets contact_form).1) = 1%nat
  ∧ Form.errors (Form.run_widgets contact_form).1 = ∅
  ∧ Form.process contact_form VNone ∅ = Raise (KeyError "form").
Proof. split_and!; reflexivity. Qed.

(** [Form.__init__] stores the widgets of the class by name. *)
Example init_two_widgets :
  Form.init [title_widget; body_widget] [] [] (VDict ∅) (Some body_only) ∅ ∅
  = Ok (form_of two_widgets (Some body_only)).
Proof. reflexivity. Qed.

(** What [Widget.get_value] yields for a plain widget without processors:
    [from_form] ends in [self.process_out(value, form)], so the chain runs on
    the form, and the form is what comes back. *)
Example get_value_plain_widget :
  Widget.get_value body_widget (form_of two_widgets (Some body_only)) = Ok VForm.
Proof. reflexivity. Qed.

(** For a text widget [get_value] passes the form where [Input.from_form]
    reads [request.form]; the lookup of [form] on the form raises [KeyError],
    which [Form.process] does not catch. *)
Example process_text_widget :
  Form.process
    (form_of {[ "body" := {| cls := CText; name := "body"; required := true;
                            messages := default_messages;
                            processors_out := []; processors_in := [] |} ]}
             (Some body_only)) VNone ∅
  = Raise (KeyError "form").
Proof. reflexivity. Qed.

(** C6 at the form of two plain widgets, submitted with a title and a
    body, both valid. No failure is collected and [Form.process] returns
    the envelope with the object passed in, but under ["formdata"] every
    name holds the form object, not the submitted text: [Widget.from_form]
    ends in [self.process_out(value, form)], against the parameters [form],
    [value] of [process_out], so the processor chain runs on the form. With
    the arguments in the order of the parameters the submitted text comes
    back. *)
Theorem formdata_holds_the_form :
  req_form both_fields = {[ "title" := "A title"; "body" := "hello" ]}
  ∧ Form.errors (Form.run_widgets (form_of two_widgets (Some both_fields))).1
    = ∅
  ∧ Form.process (form_of two_widgets (Some both_fields)) (VObj 7) ∅
    = Ok (VDict {[ "obj" := VObj 7;
                   "formdata" :=
                     VDict {[ "title" := VForm; "body" := VForm ]} ]})
  ∧ Widget.from_form title_widget
      (AForm (form_of two_widgets (Some both_fields)))
    = Ok VForm
  ∧ Widget.process_out title_widget VForm (VStr "A title") ∅
    = Ok (VStr "A title").
Proof. split_and!; reflexivity. Qed.

(** ** [from_form] and required fields *)

Section Required.
Variable self : Widget.
Variable m : string.
Hypothesis Hreq : required self = true.
Hypothesis Hmsg : messages self !! "required" = Some m.

Lemma raise_required_eq : raise_required self = Raise (required_error m).
Proof. unfold raise_required, required_message. by rewrite Hmsg. Qed.

(** A text input: absent, or nothing but white space. *)
Lemma text_input_blank (r : Request) :
  text_input (cls self) = true →
  match req_form r !! name self with
  | None => True
  | Some s => strip s = ""
  end →
  Widget.self_from_form self (ARequest r) = Raise (required_error m).
Proof.
  intros Hc Hb.
  assert (E : Input.from_form self (ARequest r) = Raise (required_error m)).
  { unfold Input.from_form, get_or_no_value. simpl.
    destruct (req_form r !! name self) as [s|]; simpl.
    - rewrite Hb, Hreq. simpl. apply raise_required_eq.
    - rewrite Hreq. apply raise_required_eq. }
  unfold Widget.self_from_form. by destruct (cls self).
Qed.

(** A plain widget: absent. *)
Lemma plain_widget_absent (f : Form) (r : Request) :
  plain_widget (cls self) = true →
  form_request f = Some r →
  req_form r !! name self = None →
  Widget.self_from_form self (AForm f) = Raise (required_error m).
Proof.
  intros Hc Hr Hn.
  assert (E : Widget.from_form self (AForm f) = Raise (required_error m)).
  { unfold Widget.from_form, get_or_no_value. simpl.
    rewrite Hr. simpl. rewrite Hn, Hreq. apply raise_required_eq. }
  unfold Widget.self_from_form. by destruct (cls self).
Qed.

(** A plain widget: any submitted text, the empty one too, goes on to the
    outgoing processors. *)
Lemma plain_widget_submitted (f : Form) (r : Request) (s : string) :
  plain_widget (cls self) = true →
  form_request f = Some r →
  req_form r !! name self = Some s →
  Widget.self_from_form self (AForm f)
  = Widget.process_out self (VStr s) VForm ∅.
Proof.
  intros Hc Hr Hn.
  assert (E : Widget.from_form self (AForm f)
              = Widget.process_out self (VStr s) VForm ∅).
  { unfold Widget.from_form, get_or_no_value. simpl.
    rewrite Hr. simpl. by rewrite Hn. }
  unfold Widget.self_from_form. by destruct (cls self).
Qed.
End Required.

(** C5, as the code has it. For every required text input (the classes
    [Input], [Text], [Password], [Email], [URL], [DatePicker] and
    [Textarea]), [from_form] raises the error of kind ['required'] with the
    widget's required message both when the field is absent from the
    submitted data and when it is submitted as the empty string. For the
    plain classes ([Widget], [Checkbox], [Select]) it raises that error when
    the field is absent. *)
Theorem required_missing_or_empty (self : Widget) (m : string) (r : Request) :
  required self = true →
  messages self !! "required" = Some m →
  (text_input (cls self) = true →
   req_form r !! name self = None ∨ req_form r !! name self = Some "" →
   Widget.self_from_form self (ARequest r) = Raise (required_error m))
  ∧ (plain_widget (cls self) = true →
     req_form r !! name self = None →
     ∀ f, form_request f = Some r →
          Widget.self_from_form self (AForm f) = Raise (required_error m)).
Proof.
  intros Hreq Hmsg. split.
  - intros Hc Hb. apply text_input_blank; [done..|].
    by destruct Hb as [-> | ->].
  - intros Hc Hn f Hr. by eapply plain_widget_absent.
Qed.

(** The required e-mail input, submitted empty and not submitted, and the
    required plain title widget, not submitted. *)
Lemma required_missing_or_empty_witness :
  Widget.self_from_form email_widget (ARequest empty_email)
  = Raise (required_error "This field is required")
  ∧ Widget.self_from_form email_widget (ARequest body_only)
    = Raise (required_error "This field is required")
  ∧ Widget.self_from_form title_widget
      (AForm (form_of two_widgets (Some body_only)))
    = Raise (required_error "This field is required").
Proof.
  split_and!.
  - apply (required_missing_or_empty email_widget "This field is required"
             empty_email); [reflexivity | reflexivity | reflexivity |].
    right. reflexivity.
  - apply (required_missing_or_empty email_widget "This field is required"
             body_only); [reflexivity | reflexivity | reflexivity |].
    left. reflexivity.
  - apply (required_missing_or_empty title_widget "This field is required"
             body_only); reflexivity.
Defined.

(** C5 as stated fails for the plain [Widget]: required and submitted as the
    empty string, its [from_form] raises nothing. *)
Lemma required_empty_plain_widget :
  required title_widget = true
  ∧ req_form empty_title !! name title_widget = Some ""
  ∧ Widget.from_form title_widget (AForm (form_of two_widgets (Some empty_title)))
    = Ok VForm
  ∧ Widget.self_from_form title_widget
      (AForm (form_of two_widgets (Some empty_title)))
    ≠ Raise (required_error "This field is required").
Proof. split_and!; [reflexivity..|]. vm_compute. discriminate. Qed.

(** ** The value a widget displays *)

Section WidgetValue.
Variable self : Widget.
Variable form : Form.

(** Without a request the local [value] is read before any assignment. *)
Lemma get_widget_value_no_request :
  form_request form = None →
  Widget.get_widget_value self form = Raise (UnboundLocalError "value").
Proof. unfold Widget.get_widget_value. by intros ->. Qed.

Lemma to_form_no_request kw :
  form_request form = None →
  Widget.to_form self (RenderContext_init self form kw)
  = Raise (UnboundLocalError "value").
Proof. unfold Widget.to_form. simpl. by intros ->. Qed.

(** With a request: the submitted value, else the default, else the empty
    string. *)
Lemma get_widget_value_precedence (r : Request) (d : gmap string pyval) :
  form_request form = Some r →
  form_default form = VDict d →
  Widget.get_widget_value self form
  = Ok match req_form r !! name self with
       | Some s => VStr s
       | None => match d !! name self with
                 | Some v => v
                 | None => VStr ""
                 end
       end.
Proof.
  unfold Widget.get_widget_value. intros -> ->. simpl.
  unfold get_or_no_value.
  destruct (req_form r !! name self); [reflexivity|].
  destruct (d !! name self); reflexivity.
Qed.
End WidgetValue.

(** C7 at a form without a request: [get_widget_value] and [to_form] raise
    [UnboundLocalError] where the default ["Untitled"] was to be used. *)
Theorem widget_value_without_request :
  Widget.get_widget_value title_widget unsubmitted
  = Raise (UnboundLocalError "value")
  ∧ Widget.to_form title_widget (RenderContext_init title_widget unsubmitted ∅)
    = Raise (UnboundLocalError "value")
  ∧ Widget.default_get (form_default unsubmitted) (name title_widget)
    = Ok (VStr "Untitled").
Proof. split_and!; reflexivity. Qed.

(** ** [Handler.handle] *)

Section Handle.
Variable unserialize : string → string → gmap string (list Handler.message).
Variable self : Handler.Handler.
Variable r : Request.
Variable m : gmap string string.
Hypothesis Hrequest : Handler.request self = Some r.

(** The name [handle] looks up on the handler. *)
Lemma handle_lookup st :
  Handler.handle unserialize self m st
  = match attribute_name
            (text_lower (default (Bytes (req_method r))
                           (Unicode <$> req_values r !! "method"))) with
    | Ok method =>
        match Handler.attrs self !! method with
        | Some a =>
            (Handler.emit Handler.Decode_messages;;
             let* ms := st_lift (Handler.decode_messages unserialize self
                                   (req_cookies r)) in
             Handler.set_messages_in ms;;
             Handler.log_debug self (req_method r) m;;
             Handler.invoke method a (delete "handler" m))%st st
        | None => (Ok (ExcResponse MethodNotAllowed), st)
        end
    | Raise e => (Raise e, st)
    end.
Proof.
  unfold Handler.handle. rewrite Hrequest. unfold st_bind at 1, st_lift.
  destruct (attribute_name _) as [method|e]; [|done].
  by destruct (Handler.attrs self !! method).
Qed.

(** The text [handle] lowers, by the [method] parameter. *)
Lemma lowered_method :
  text_lower (default (Bytes (req_method r))
                (Unicode <$> req_values r !! "method"))
  = match req_values r !! "method" with
    | Some v => Unicode (unicode_lower v)
    | None => Bytes (lower (req_method r))
    end.
Proof. by destruct (req_values r !! "method"). Qed.
End Handle.


(** On ASCII text the two ways of lowering agree. *)
Lemma unicode_lower_ascii (s : string) :
  is_ascii s = true → unicode_lower s = lower s.
Proof.
  induction s as [|c s IH]; [done|]. simpl. intros Hs.
  apply andb_true_iff in Hs as [Hc Hs]. rewrite (IH Hs). f_equal.
  by destruct c as [[] [] [] [] [] [] [] []].
Qed.






(** ** The application: error handlers *)

(** Unfolding the state-and-exception combinators. *)
Ltac st_unfold :=
  unfold st_bind, st_try, st_lift, st_ret, st_raise, st_modify, emit,
    set_got_first_request.

Section ErrorHandlers.
Context {Session : Type} `{SessionInterface Session}.
Implicit Types (self : Application (Session := Session)).
Implicit Types (handler_class : HandlerClass (Session := Session)).
Implicit Types (handler : HandlerInstance (Session := Session)).
Implicit Types (st : state (Session := Session)).

Lemma call_error_handler_returns context self handler_class request kwargs st
    handler response :
  new handler_class request = Ok handler →
  call handler kwargs = Ok response →
  call_error_handler context self handler_class request kwargs st
  = (Ok response, after_call handler_class kwargs st []).
Proof.
  intros Hn Hc. unfold call_error_handler, after_call. st_unfold. simpl.
  rewrite Hn. simpl. rewrite Hc. simpl. by rewrite <- app_assoc.
Qed.

(** Where no processor is in effect, the exception of the call is logged
    and answered. *)
Lemma call_error_handler_raises self handler_class request kwargs st
    handler e :
  new handler_class request = Ok handler →
  call handler kwargs = Raise e →
  call_error_handler [] self handler_class request kwargs st
  = (Ok handler_failed, after_call handler_class kwargs st [Logged_exception]).
Proof.
  intros Hn Hc. unfold call_error_handler, logbook_exception, after_call.
  st_unfold. simpl. rewrite Hn. simpl. rewrite Hc. simpl.
  by rewrite <- !app_assoc.
Qed.

(** Where the processor of [process_request] is in effect, logging the
    exception of the call raises, and that is what leaves
    [call_error_handler]. *)
Lemma call_error_handler_log_raises r context self handler_class request
    kwargs st handler e :
  new handler_class request = Ok handler →
  call handler kwargs = Raise e →
  call_error_handler (inject r :: context) self handler_class request kwargs st
  = (Raise (NameError "handler_cls"), after_call handler_class kwargs st []).
Proof.
  intros Hn Hc. unfold call_error_handler, logbook_exception, after_call.
  st_unfold. simpl. rewrite Hn. simpl. rewrite Hc. simpl.
  by rewrite <- !app_assoc.
Qed.

(** An exception of the constructor is raised before the [try]. *)
Lemma call_error_handler_new_raises context self handler_class request kwargs
    st e :
  new handler_class request = Raise e →
  (call_error_handler context self handler_class request kwargs st).1
  = Raise e.
Proof.
  intros Hn. unfold call_error_handler. st_unfold. simpl. by rewrite Hn.
Qed.

(** [c in self.error_handlers], by the entries of the dictionary. *)
Lemma lookup_code_Some self c handler_class :
  lookup_code self (Some c) = Some handler_class →
  (Code c, handler_class) ∈ error_handlers self.
Proof.
  unfold lookup_code. intros Hl.
  apply fmap_Some in Hl as ([k h] & Hf & ->).
  apply find_some in Hf as [Hin Hk]. simpl in *.
  destruct k as [c'|]; [|done]. apply bool_decide_eq_true in Hk as ->.
  by apply list_elem_of_In.
Qed.

Lemma lookup_code_None self c :
  lookup_code self (Some c) = None ↔
  ∀ handler_class, (Code c, handler_class) ∉ error_handlers self.
Proof.
  unfold lookup_code. rewrite fmap_None. split.
  - intros Hf h Hin. apply list_elem_of_In in Hin.
    apply (find_none _ _ Hf) in Hin. simpl in Hin.
    by rewrite bool_decide_eq_false in Hin.
  - intros Hnot.
    destruct (find _ (error_handlers self)) as [[k h]|] eqn:Hf; [|done].
    apply find_some in Hf as [Hin Hk]. simpl in Hk.
    destruct k as [c'|]; [|done]. apply bool_decide_eq_true in Hk as ->.
    apply list_elem_of_In in Hin. by apply Hnot in Hin.
Qed.
End ErrorHandlers.


(** C2 at a request no route matches, for an application whose handler
    for 404 raises and which has a handler for 500. [call_error_handler]
    catches the exception of the handler for 404, but the [except] clause
    logs it where the processor [inject] of [process_request] is in effect,
    and [inject] reads the unbound name [handler_cls]: a [NameError] leaves
    [call_error_handler] and [process_request], and under [__call__] it is
    handed to [handle_exception], which calls the handler for 500 with it.
    Outside [process_request] the same call of the handler for 404 is
    answered with the generic internal server error. *)
Theorem error_handler_exception_leaves_the_cascade :
  lookup_code failing_pages (Some 404) = Some not_found_failing
  ∧ call (failing_instance (KeyError "user")) {[ "exception" := KExc NotFound ]}
    = Raise (KeyError "user")
  ∧ call_error_handler [inject get_request] failing_pages not_found_failing
      get_request {[ "exception" := KExc NotFound ]} initial
    = (Raise (NameError "handler_cls"),
       {| _got_first_request := false;
          trace := [Instantiated "NotFoundPage";
                    Called "NotFoundPage" {[ "exception" := KExc NotFound ]}] |})
  ∧ process_request failing_pages get_request initial
    = (Raise (NameError "handler_cls"),
       {| _got_first_request := true;
          trace := [Before_first_request get_request;
                    Instantiated "NotFoundPage";
                    Called "NotFoundPage" {[ "exception" := KExc NotFound ]}] |})
  ∧ __call__ failing_pages get_request initial
    = (Ok (Resp 500 "error" ∅),
       {| _got_first_request := true;
          trace := [Before_first_request get_request;
                    Instantiated "NotFoundPage";
                    Called "NotFoundPage" {[ "exception" := KExc NotFound ]};
                    Logged_exception;
                    Instantiated "ServerError";
                    Called "ServerError"
                      {[ "exception" := KExc (NameError "handler_cls") ]}] |})
  ∧ call_error_handler [] failing_pages not_found_failing get_request
      {[ "exception" := KExc NotFound ]} initial
    = (Ok (ExcResponse (InternalServerError
             (Some "we got an exception in the error handler"))),
       {| _got_first_request := false;
          trace := [Instantiated "NotFoundPage";
                    Called "NotFoundPage" {[ "exception" := KExc NotFound ]};
                    Logged_exception] |}).
Proof. split_and!; reflexivity. Qed.

(** ** The application: HTTP exceptions *)

Section HttpExceptions.
Context {Session : Type} `{SessionInterface Session}.
Implicit Types (self : Application (Session := Session)).
Implicit Types (st : state (Session := Session)).

Lemma handle_http_exception_registered context self request cls c d st
    handler_class :
  lookup_code self (Some c) = Some handler_class →
  handle_http_exception context self request (HTTPException cls (Some c) d) st
  = call_error_handler context self handler_class request
      {[ "exception" := KExc (HTTPException cls (Some c) d) ]} st.
Proof.
  intros Hl. unfold handle_http_exception. st_unfold. simpl. by rewrite Hl.
Qed.

Lemma handle_http_exception_unregistered context self request cls c d st :
  lookup_code self (Some c) = None →
  handle_http_exception context self request (HTTPException cls (Some c) d) st
  = (Ok (ExcResponse (HTTPException cls (Some c) d)), st).
Proof.
  intros Hl. unfold handle_http_exception. st_unfold. simpl. by rewrite Hl.
Qed.

(** A route that matches nothing: the routing exception is raised again as
    it is, in debug mode too. *)
Lemma find_handler_not_found self request st :
  url_match self request = Raise NotFound →
  find_handler self request st = (Raise NotFound, st).
Proof.
  intros Hu. unfold find_handler. rewrite Hu. simpl.
  unfold raise_routing_exception. simpl. by destruct (debug self).
Qed.

(** [process_request] for such a route, once the first-request check is
    through: the response of [handle_http_exception], finalized; no handler
    was built, so no session is saved. *)
Lemma process_request_not_found self request st st1 :
  url_match self request = Raise NotFound →
  check_first_request self request st = (Ok tt, st1) →
  process_request self request st
  = (let* response :=
       handle_http_exception [inject request] self request NotFound in
     st_lift (finalize_response self response))%st st1.
Proof.
  intros Hu Hc. unfold process_request, respond.
  unfold st_bind at 1. rewrite Hc.
  unfold st_bind at 1. rewrite (find_handler_not_found _ _ _ Hu).
  unfold handle_user_exception. simpl. unfold st_bind.
  destruct (handle_http_exception [inject request] self request NotFound st1)
    as [[r|e] st2]; reflexivity.
Qed.
End HttpExceptions.

(** C3. For every HTTP exception [e] with a status code: when a handler
    class is registered under that code, [handle_http_exception] builds it,
    calls the instance with [e] as the keyword argument [exception] and
    returns what the call returns; when none is registered it returns [e]
    itself as the response. For a request no route matches, once the
    first-request check is through: with a handler registered under 404
    [process_request] calls that handler with the routing exception and
    returns its finalized response, and without one the finalized
    not-found exception. *)
Theorem http_exception_handler_or_itself {Session : Type}
    `{SessionInterface Session} (self : Application (Session := Session))
    (request : Request) (st : state) (cls : string) (c : Z)
    (d : option string) (context : list Processor) :
  (∀ handler_class handler response,
     lookup_code self (Some c) = Some handler_class →
     new handler_class request = Ok handler →
     call handler {[ "exception" := KExc (HTTPException cls (Some c) d) ]}
     = Ok response →
     handle_http_exception context self request
       (HTTPException cls (Some c) d) st
     = (Ok response,
        {| _got_first_request := _got_first_request st;
           trace := (trace st
                     ++ [Instantiated (handler_name handler_class);
                         Called (handler_name handler_class)
                           {[ "exception" :=
                                KExc (HTTPException cls (Some c) d) ]}])%list
        |}))
  ∧ (lookup_code self (Some c) = None →
     handle_http_exception context self request
       (HTTPException cls (Some c) d) st
     = (Ok (ExcResponse (HTTPException cls (Some c) d)), st))
  ∧ (∀ st1,
       url_match self request = Raise NotFound →
       check_first_request self request st = (Ok tt, st1) →
       (∀ handler_class handler response,
          lookup_code self (Some 404) = Some handler_class →
          new handler_class request = Ok handler →
          call handler {[ "exception" := KExc NotFound ]} = Ok response →
          process_request self request st
          = (finalize_response self response,
             {| _got_first_request := _got_first_request st1;
                trace := (trace st1
                          ++ [Instantiated (handler_name handler_class);
                              Called (handler_name handler_class)
                                {[ "exception" := KExc NotFound ]}])%list |}))
       ∧ (lookup_code self (Some 404) = None →
          process_request self request st
          = (finalize_response self (ExcResponse NotFound), st1))).
Proof.
  split_and!.
  - intros handler_class handler response Hl Hn Hc.
    rewrite (handle_http_exception_registered _ _ _ _ _ _ _ _ Hl).
    by rewrite (call_error_handler_returns _ _ _ _ _ _ _ _ Hn Hc).
  - apply handle_http_exception_unregistered.
  - intros st1 Hu Hf. rewrite (process_request_not_found _ _ _ _ Hu Hf).
    unfold st_bind, NotFound. split.
    + intros handler_class handler response Hl Hn Hc.
      rewrite (handle_http_exception_registered _ _ _ _ _ _ _ _ Hl).
      by rewrite (call_error_handler_returns _ _ _ _ _ _ _ _ Hn Hc).
    + intros Hl.
      by rewrite (handle_http_exception_unregistered _ _ _ _ _ _ _ Hl).
Qed.

(** A request no route matches, with and without a handler for 404, and a
    405 without a handler. *)
Lemma http_exception_handler_or_itself_witness :
  process_request with_not_found_page get_request initial
  = (Ok (Resp 404 "nothing here" ∅),
     {| _got_first_request := true;
        trace := [Before_first_request get_request;
                  Instantiated "NotFoundPage";
                  Called "NotFoundPage" {[ "exception" := KExc NotFound ]}] |})
  ∧ process_request bare_application get_request initial
    = (Ok (ExcResponse NotFound),
       {| _got_first_request := true;
          trace := [Before_first_request get_request] |})
  ∧ handle_http_exception [inject get_request] bare_application get_request
      MethodNotAllowed initial
    = (Ok (ExcResponse MethodNotAllowed), initial).
Proof.
  split_and!.
  - destruct (http_exception_handler_or_itself with_not_found_page get_request
                initial "NotFound" 404 None []) as (_ & _ & P).
    apply (proj1 (P {| _got_first_request := true;
                       trace := [Before_first_request get_request] |}
                    eq_refl eq_refl)
             (answering "NotFoundPage" (Resp 404 "nothing here" ∅) None)
             {| call := λ _, Ok (Resp 404 "nothing here" ∅); session := None |});
      reflexivity.
  - destruct (http_exception_handler_or_itself bare_application get_request
                initial "NotFound" 404 None []) as (_ & _ & P).
    apply (proj2 (P {| _got_first_request := true;
                       trace := [Before_first_request get_request] |}
                    eq_refl eq_refl)).
    reflexivity.
  - destruct (http_exception_handler_or_itself bare_application get_request
                initial "MethodNotAllowed" 405 None [inject get_request])
      as (_ & Q & _).
    apply Q. reflexivity.
Defined.

(** ** The application: what each step records *)

Section Appends.
Context {Session : Type} `{SessionInterface Session}.
Implicit Types (self : Application (Session := Session)).
Implicit Types (P : event (Session := Session) → bool).

Lemma appends_weaken {A} P Q (m : state → outcome A * state) :
  (∀ ev, P ev = true → Q ev = true) → appends P m → appends Q m.
Proof.
  intros HPQ Hm s. destruct (Hm s) as (evs & E & F). exists evs.
  split; [done|]. rewrite forallb_forall in *. auto.
Qed.

Lemma appends_nothing {A} P (o : outcome A) : appends P (λ s, (o, s)).
Proof. intros [g t]. exists []. simpl. by rewrite app_nil_r. Qed.

Lemma appends_emit P ev : P ev = true → appends P (emit ev).
Proof. intros HP s. exists [ev]. simpl. by rewrite HP. Qed.

Lemma appends_bind {A B} P (m : state → outcome A * state)
    (k : A → state → outcome B * state) :
  appends P m → (∀ a, appends P (k a)) → appends P (st_bind m k).
Proof.
  intros Hm Hk s. unfold st_bind.
  destruct (Hm s) as (evs & E & F). destruct (m s) as [[a|e] s1]; simpl in E.
  - destruct (Hk a s1) as (evs' & E' & F'). exists (evs ++ evs')%list.
    rewrite E', E. simpl. rewrite app_assoc, forallb_app, F, F'. done.
  - exists evs. done.
Qed.

Lemma appends_try {A} P (m : state → outcome A * state)
    (h : exn → state → outcome A * state) :
  appends P m → (∀ e, appends P (h e)) → appends P (st_try m h).
Proof.
  intros Hm Hh s. unfold st_try.
  destruct (Hm s) as (evs & E & F). destruct (m s) as [[a|e] s1]; simpl in E.
  - exists evs. done.
  - destruct (Hh e s1) as (evs' & E' & F'). exists (evs ++ evs')%list.
    rewrite E', E. simpl. rewrite app_assoc, forallb_app, F, F'. done.
Qed.

(** Closing a goal [appends P m] along the structure of [m]. *)
Ltac appends_tac :=
  repeat first
    [ apply appends_bind; [|intros ?]
    | apply appends_try; [|intros ?]
    | apply appends_nothing
    | by apply appends_emit ].

Lemma appends_logbook_exception context :
  appends quiet (logbook_exception (Session := Session) context).
Proof. unfold logbook_exception, st_lift. appends_tac. Qed.

Lemma appends_call_error_handler context self handler_class request kwargs :
  appends quiet (call_error_handler context self handler_class request kwargs).
Proof.
  unfold call_error_handler, logbook_exception, st_lift, st_ret.
  appends_tac.
Qed.

Lemma appends_handle_http_exception context self request e :
  appends quiet (handle_http_exception context self request e).
Proof.
  unfold handle_http_exception, st_lift, st_ret. appends_tac.
  destruct (lookup_code self _);
    [apply appends_call_error_handler | apply appends_nothing].
Qed.

Lemma appends_handle_user_exception context self request e :
  appends quiet (handle_user_exception context self request e).
Proof.
  unfold handle_user_exception.
  destruct (isinstance e "HTTPException");
    [apply appends_handle_http_exception|].
  destruct (find _ _) as [[k h]|];
    [apply appends_call_error_handler | apply appends_nothing].
Qed.

Lemma appends_handle_exception self request e :
  appends quiet (handle_exception self request e).
Proof.
  unfold handle_exception.
  destruct (propagate_exceptions self); [apply appends_nothing|].
  apply appends_bind; [apply appends_logbook_exception|]. intros _.
  destruct (lookup_code self _);
    [apply appends_call_error_handler | apply appends_nothing].
Qed.

Lemma appends_find_handler self request :
  appends quiet (find_handler self request).
Proof.
  unfold find_handler, raise_routing_exception, st_raise, st_lift, st_ret.
  destruct (url_match self request) as [[endpoint view_args]|e].
  - destruct (handlers self !! endpoint); appends_tac.
  - repeat case_match; apply appends_nothing.
Qed.

Lemma appends_respond context self request :
  appends quiet (respond context self request).
Proof.
  intros s. unfold respond.
  destruct (appends_find_handler self request s) as (evs & E & F).
  destruct (find_handler self request s) as [[[handler view_args]|e] s1];
    simpl in E.
  - assert (Hk : appends quiet
      (let* response := st_try (st_lift (call handler view_args))
                          (handle_user_exception context self request) in
       st_ret (Some handler, response))%st).
    { unfold st_lift, st_ret. appends_tac. apply appends_handle_user_exception. }
    destruct (Hk s1) as (evs' & E' & F'). exists (evs ++ evs')%list.
    rewrite E', E. simpl. rewrite app_assoc, forallb_app, F, F'. done.
  - assert (Hk : appends quiet
      (let* response := handle_user_exception context self request e in
       st_ret (None : option (HandlerInstance (Session := Session)),
              response))%st).
    { unfold st_ret. appends_tac. apply appends_handle_user_exception. }
    destruct (Hk s1) as (evs' & E' & F'). exists (evs ++ evs')%list.
    rewrite E', E. simpl. rewrite app_assoc, forallb_app, F, F'. done.
Qed.

Lemma appends_persist handler response :
  appends not_hook (persist handler response).
Proof.
  unfold persist, st_lift, st_ret. destruct handler as [handler|].
  - destruct (negb _); appends_tac.
  - apply appends_nothing.
Qed.

(** What a step that records only such events leaves of the two lists. *)
Lemma hook_calls_appends {A}
    (m : state (Session := Session) → outcome A * state) s :
  appends not_hook m →
  _got_first_request (m s).2 = _got_first_request s
  ∧ hook_calls (m s).2 = hook_calls s.
Proof.
  intros Hm. destruct (Hm s) as (evs & -> & F). split; [done|].
  unfold hook_calls. simpl. rewrite omap_app.
  assert (E : omap (λ ev : event, match ev with
                                  | Before_first_request r => Some r
                                  | _ => None
                                  end) evs = []).
  { induction evs as [|ev evs IH]; [done|]. simpl in F.
    apply andb_true_iff in F as [Fev F]. simpl.
    destruct ev; try discriminate Fev; by apply IH. }
  by rewrite E, app_nil_r.
Qed.

Lemma saved_sessions_appends {A}
    (m : state (Session := Session) → outcome A * state) s :
  appends quiet m → saved_sessions (m s).2 = saved_sessions s.
Proof.
  intros Hm. destruct (Hm s) as (evs & -> & F).
  unfold saved_sessions. simpl. rewrite omap_app.
  assert (E : omap (λ ev : event, match ev with
                                  | Saved_session x r => Some (x, r)
                                  | _ => None
                                  end) evs = []).
  { induction evs as [|ev evs IH]; [done|]. simpl in F.
    apply andb_true_iff in F as [Fev F]. simpl.
    destruct ev; try discriminate Fev; by apply IH. }
  by rewrite E, app_nil_r.
Qed.
End Appends.

(** ** The first-request hook *)

Section FirstRequest.
Context {Session : Type} `{SessionInterface Session}.
Implicit Types (self : Application (Session := Session)).
Implicit Types (st : state (Session := Session)).

Lemma check_first_request_done self r st :
  _got_first_request st = true → check_first_request self r st = (Ok tt, st).
Proof. intros Hg. unfold check_first_request. by rewrite Hg. Qed.

Lemma check_first_request_returns self r st :
  _got_first_request st = false →
  before_first_request self r = Ok tt →
  check_first_request self r st = (Ok tt, hook_called r true st).
Proof.
  intros Hg Hh. unfold check_first_request. rewrite Hg. st_unfold. simpl.
  by rewrite Hh.
Qed.

Lemma check_first_request_raises self r st e :
  _got_first_request st = false →
  before_first_request self r = Raise e →
  check_first_request self r st = (Raise e, hook_called r false st).
Proof.
  intros Hg Hh. unfold check_first_request. rewrite Hg. st_unfold. simpl.
  rewrite Hh. unfold hook_called. by rewrite Hg.
Qed.

(** The exception of the hook leaves [process_request] at once. *)
Lemma process_request_hook_raises self r st e :
  _got_first_request st = false →
  before_first_request self r = Raise e →
  process_request self r st = (Raise e, hook_called r false st).
Proof.
  intros Hg Hh. unfold process_request. unfold st_bind at 1.
  by rewrite (check_first_request_raises _ _ _ _ Hg Hh).
Qed.

(** [process_request] once the check is through. *)
Lemma process_request_checked self r st st1 :
  check_first_request self r st = (Ok tt, st1) →
  process_request self r st
  = (let* hr := respond [inject r] self r in
     let* response := persist hr.1 hr.2 in
     st_lift (finalize_response self response))%st st1.
Proof.
  intros Hc. unfold process_request. unfold st_bind at 1. by rewrite Hc.
Qed.

(** After the check, [process_request] neither calls the hook nor touches
    the flag. *)
Lemma process_request_after_check self r st st1 :
  check_first_request self r st = (Ok tt, st1) →
  _got_first_request (process_request self r st).2 = _got_first_request st1
  ∧ hook_calls (process_request self r st).2 = hook_calls st1.
Proof.
  intros Hc. rewrite (process_request_checked _ _ _ _ Hc).
  apply (hook_calls_appends
           (let* hr := respond [inject r] self r in
            let* response := persist hr.1 hr.2 in
            st_lift (finalize_response self response))%st).
  apply appends_bind.
  - eapply appends_weaken; [|apply appends_respond]. by intros [].
  - intros hr. apply appends_bind; [apply appends_persist|].
    intros response. apply appends_nothing.
Qed.

Lemma run_requests_cons self r requests st :
  run_requests self (r :: requests) st
  = run_requests self requests (process_request self r st).2.
Proof. reflexivity. Qed.

(** Once the flag is set, no request calls the hook. *)
Lemma run_requests_done self requests : ∀ st,
  _got_first_request st = true →
  hook_calls (run_requests self requests st) = hook_calls st.
Proof.
  induction requests as [|r requests IH]; intros st Hg; [done|].
  rewrite run_requests_cons.
  destruct (process_request_after_check self r st st
              (check_first_request_done self r st Hg)) as [Hg' Hc'].
  rewrite IH; [done | by rewrite Hg'].
Qed.

(** Until then, every request calls it. *)
Lemma run_requests_pending self requests : ∀ st,
  _got_first_request st = false →
  hook_calls (run_requests self requests st)
  = (hook_calls st
     ++ until_hook_returns (before_first_request self) requests)%list.
Proof.
  assert (Hcalled : ∀ r got st,
            hook_calls (hook_called r got st) = (hook_calls st ++ [r])%list).
  { intros r got st. unfold hook_calls, hook_called. simpl.
    by rewrite omap_app. }
  induction requests as [|r requests IH]; intros st Hg.
  - simpl. by rewrite app_nil_r.
  - rewrite run_requests_cons. simpl.
    destruct (before_first_request self r) as [[]|e] eqn:Hh.
    + destruct (process_request_after_check self r st _
                  (check_first_request_returns self r st Hg Hh)) as [Hg' Hc'].
      rewrite run_requests_done; [|by rewrite Hg'].
      by rewrite Hc', Hcalled.
    + rewrite (process_request_hook_raises _ _ _ _ Hg Hh). simpl.
      rewrite IH; [|done]. by rewrite Hcalled, <- app_assoc.
Qed.
End FirstRequest.

(** C4, as the code has it. For every application instance and every
    sequence of processed requests, [before_first_request] is called on each
    request up to and with the first one on which it returns, and on none
    after that: the flag is set when the hook has returned and keeps every
    later request from calling it. So a hook that raises nothing is called
    exactly once, on the first request. When the hook raises, the flag stays
    unset, the next request calls the hook again, and the exception leaves
    [process_request] without passing [handle_user_exception]; under
    [__call__] it is handed to [handle_exception]. *)
Theorem first_request_hook_until_it_returns {Session : Type}
    `{SessionInterface Session} (self : Application (Session := Session))
    (requests : list Request) :
  hook_calls (run_requests self requests initial)
  = until_hook_returns (before_first_request self) requests
  ∧ ((∀ r, before_first_request self r = Ok tt) →
     ∀ r, hook_calls (run_requests self (r :: requests) initial) = [r])
  ∧ (∀ st r, _got_first_request st = true →
             check_first_request self r st = (Ok tt, st))
  ∧ (∀ st r e,
       _got_first_request st = false →
       before_first_request self r = Raise e →
       process_request self r st
       = (Raise e,
          {| _got_first_request := false;
             trace := (trace st ++ [Before_first_request r])%list |})
       ∧ __call__ self r st
         = handle_exception self r e
             {| _got_first_request := false;
                trace := (trace st ++ [Before_first_request r])%list |}).
Proof.
  split_and!.
  - by rewrite run_requests_pending.
  - intros Hok r. rewrite run_requests_pending by done. simpl.
    by rewrite Hok.
  - intros st r. apply check_first_request_done.
  - intros st r e Hg Hh. unfold __call__, st_try.
    by rewrite (process_request_hook_raises _ _ _ _ Hg Hh).
Qed.

(** A hook that raises on a POST is called for the POST and for the GET after
    it, and not for the third request; the hook of the bare application
    returns at once and is called for the first request alone. *)
Lemma first_request_hook_until_it_returns_witness :
  hook_calls (run_requests get_only_hook
                [post_request; get_request; get_request] initial)
  = [post_request; get_request]
  ∧ hook_calls (run_requests bare_application
                  [post_request; get_request; get_request] initial)
    = [post_request]
  ∧ check_first_request get_only_hook post_request
      {| _got_first_request := true; trace := [] |}
    = (Ok tt, {| _got_first_request := true; trace := [] |})
  ∧ process_request get_only_hook post_request initial
    = (Raise (UserException ["RuntimeError"] "not ready"),
       {| _got_first_request := false;
          trace := [Before_first_request post_request] |}).
Proof.
  split_and!.
  - apply (proj1 (first_request_hook_until_it_returns get_only_hook
                    [post_request; get_request; get_request])).
  - apply (proj1 (proj2 (first_request_hook_until_it_returns bare_application
                           [get_request; get_request]))
             (λ _, eq_refl) post_request).
  - apply (proj1 (proj2 (proj2 (first_request_hook_until_it_returns
                                  get_only_hook [])))
             {| _got_first_request := true; trace := [] |} post_request
             eq_refl).
  - apply (proj1 (proj2 (proj2 (proj2 (first_request_hook_until_it_returns
                                         get_only_hook []))) initial
                    post_request (UserException ["RuntimeError"] "not ready")
                    eq_refl eq_refl)).
Defined.

(** C4 as stated fails when the hook raises: with a hook that raises on
    every request, the second request calls the hook again, and the flag is
    still unset after it. *)
Lemma first_request_hook_retried :
  hook_calls (run_requests raising_hook [get_request; post_request] initial)
  = [get_request; post_request]
  ∧ _got_first_request
      (run_requests raising_hook [get_request; post_request] initial)
    = false.
Proof. split; reflexivity. Qed.

(** ** Saving the session *)

Section Sessions.
Context {Session : Type} `{SessionInterface Session}.
Implicit Types (self : Application (Session := Session)).
Implicit Types (st : state (Session := Session)).
Implicit Types (handler : HandlerInstance (Session := Session)).

Lemma respond_no_handler context self request st e s1 :
  find_handler self request st = (Raise e, s1) →
  respond context self request st
  = (let* response := handle_user_exception context self request e in
     st_ret (None, response))%st s1.
Proof. intros Hf. unfold respond. by rewrite Hf. Qed.

Lemma respond_handler context self request st handler view_args s1 :
  find_handler self request st = (Ok (handler, view_args), s1) →
  respond context self request st
  = (let* response :=
       handler_response context self request handler view_args in
     st_ret (Some handler, response))%st s1.
Proof. intros Hf. unfold respond. by rewrite Hf. Qed.

Lemma saved_sessions_check_first_request self request st :
  saved_sessions (check_first_request self request st).2 = saved_sessions st.
Proof.
  unfold check_first_request. destruct (_got_first_request st); [done|].
  st_unfold. simpl.
  destruct (before_first_request self request); simpl;
    unfold saved_sessions; simpl; by rewrite omap_app, app_nil_r.
Qed.

Lemma saved_sessions_find_handler self request st :
  saved_sessions (find_handler self request st).2 = saved_sessions st.
Proof. apply saved_sessions_appends, appends_find_handler. Qed.

Lemma saved_sessions_handle_user_exception context self request e st :
  saved_sessions (handle_user_exception context self request e st).2
  = saved_sessions st.
Proof. apply saved_sessions_appends, appends_handle_user_exception. Qed.

Lemma saved_sessions_handler_response context self request handler view_args
    st :
  saved_sessions (handler_response context self request handler view_args st).2
  = saved_sessions st.
Proof.
  apply saved_sessions_appends. unfold handler_response, st_lift.
  apply appends_try; [apply appends_nothing|].
  intros e. apply appends_handle_user_exception.
Qed.

Lemma saved_sessions_session_saved handler response st :
  saved_sessions (session_saved handler response st)
  = (saved_sessions st ++ [(session handler, response)])%list.
Proof. unfold saved_sessions, session_saved. simpl. by rewrite omap_app. Qed.

(** No handler: the response goes to [finalize_response] as it is. *)
Lemma process_request_no_handler self request st st1 e s1 :
  check_first_request self request st = (Ok tt, st1) →
  find_handler self request st1 = (Raise e, s1) →
  process_request self request st
  = (let* response :=
       handle_user_exception [inject request] self request e in
     st_lift (finalize_response self response))%st s1.
Proof.
  intros Hc Hf. rewrite (process_request_checked _ _ _ _ Hc).
  unfold st_bind at 1. rewrite (respond_no_handler _ _ _ _ _ _ Hf).
  unfold st_bind.
  by destruct (handle_user_exception [inject request] self request e s1)
    as [[r|e'] s2].
Qed.

(** A handler: its session decides. *)
Lemma process_request_handler self request st st1 handler view_args s1 :
  check_first_request self request st = (Ok tt, st1) →
  find_handler self request st1 = (Ok (handler, view_args), s1) →
  process_request self request st
  = (let* response :=
       handler_response [inject request] self request handler view_args in
     let* response := persist (Some handler) response in
     st_lift (finalize_response self response))%st s1.
Proof.
  intros Hc Hf. rewrite (process_request_checked _ _ _ _ Hc).
  unfold st_bind at 1. rewrite (respond_handler _ _ _ _ _ _ _ Hf).
  unfold st_bind at 1 3.
  by destruct (handler_response [inject request] self request handler
                 view_args s1) as [[r|e'] s2].
Qed.
End Sessions.

(** C8. For every processed request, [save_session] is called at most once,
    and only for a handler that [find_handler] built and whose session is
    not the null session. Once the first-request check is through: when
    [find_handler] raises, so that no handler exists, or when the session of
    the handler is the null session, [save_session] is not called and the
    response reaches [finalize_response] as it was produced; when the
    handler exists, its session is not null and a response was produced (by
    the handler or by [handle_user_exception]), [save_session] is called
    once with that session and that response, and the result is the saved
    response, finalized. *)
Theorem session_saved_only_for_handler_session {Session : Type}
    `{SessionInterface Session} (self : Application (Session := Session))
    (request : Request) (st : state) :
  (saved_sessions (process_request self request st).2 = saved_sessions st
   ∨ ∃ st1 handler view_args s1 response,
       check_first_request self request st = (Ok tt, st1)
       ∧ find_handler self request st1 = (Ok (handler, view_args), s1)
       ∧ is_null_session (session handler) = false
       ∧ saved_sessions (process_request self request st).2
         = (saved_sessions st ++ [(session handler, response)])%list)
  ∧ (∀ st1,
       check_first_request self request st = (Ok tt, st1) →
       (∀ e s1,
          find_handler self request st1 = (Raise e, s1) →
          saved_sessions (process_request self request st).2
          = saved_sessions st
          ∧ ∀ response s2,
              handle_user_exception [inject request] self request e s1
              = (Ok response, s2) →
              process_request self request st
              = (finalize_response self response, s2))
       ∧ (∀ handler view_args s1 response s2,
            find_handler self request st1 = (Ok (handler, view_args), s1) →
            st_try (st_lift (call handler view_args))
              (handle_user_exception [inject request] self request) s1
            = (Ok response, s2) →
            (is_null_session (session handler) = true →
             saved_sessions (process_request self request st).2
             = saved_sessions st
             ∧ process_request self request st
               = (finalize_response self response, s2))
            ∧ (is_null_session (session handler) = false →
               saved_sessions (process_request self request st).2
               = (saved_sessions st ++ [(session handler, response)])%list
               ∧ process_request self request st
                 = (save_session (session handler) response
                      ≫= finalize_response self,
                    {| _got_first_request := _got_first_request s2;
                       trace := (trace s2
                                 ++ [Saved_session (session handler)
                                       response])%list |})))).
Proof.
  assert (Hcheck : ∀ st1 o, check_first_request self request st = (o, st1) →
                            saved_sessions st1 = saved_sessions st).
  { intros st1 o Hc.
    by rewrite <- (saved_sessions_check_first_request self request st), Hc. }
  assert (Hfind : ∀ st1 o s1, find_handler self request st1 = (o, s1) →
                              saved_sessions s1 = saved_sessions st1).
  { intros st1 o s1 Hf.
    by rewrite <- (saved_sessions_find_handler self request st1), Hf. }
  assert (Huser : ∀ e s1 o s2,
            handle_user_exception [inject request] self request e s1
            = (o, s2) →
            saved_sessions s2 = saved_sessions s1).
  { intros e s1 o s2 Hu.
    by rewrite <- (saved_sessions_handle_user_exception [inject request]
                     self request e s1), Hu. }
  assert (Hresp : ∀ handler view_args s1 o s2,
            handler_response [inject request] self request handler view_args
              s1 = (o, s2) →
            saved_sessions s2 = saved_sessions s1).
  { intros handler view_args s1 o s2 Hr.
    by rewrite <- (saved_sessions_handler_response [inject request] self
                     request handler view_args s1), Hr. }
  (* the run of a handler with a session, up to [finalize_response] *)
  assert (Hsaved : ∀ st1 handler view_args s1 response s2,
            check_first_request self request st = (Ok tt, st1) →
            find_handler self request st1 = (Ok (handler, view_args), s1) →
            handler_response [inject request] self request handler view_args
              s1 = (Ok response, s2) →
            is_null_session (session handler) = false →
            process_request self request st
            = (save_session (session handler) response
                 ≫= finalize_response self,
               session_saved handler response s2)).
  { intros st1 handler view_args s1 response s2 Hc Hf Hr Hn.
    rewrite (process_request_handler _ _ _ _ _ _ _ Hc Hf).
    unfold st_bind at 1. rewrite Hr. unfold persist. rewrite Hn. simpl.
    st_unfold. simpl. unfold session_saved.
    by destruct (save_session (session handler) response). }
  assert (Hnull : ∀ st1 handler view_args s1 response s2,
            check_first_request self request st = (Ok tt, st1) →
            find_handler self request st1 = (Ok (handler, view_args), s1) →
            handler_response [inject request] self request handler view_args
              s1 = (Ok response, s2) →
            is_null_session (session handler) = true →
            process_request self request st
            = (finalize_response self response, s2)).
  { intros st1 handler view_args s1 response s2 Hc Hf Hr Hn.
    rewrite (process_request_handler _ _ _ _ _ _ _ Hc Hf).
    unfold st_bind at 1. rewrite Hr. unfold persist. rewrite Hn. simpl.
    by st_unfold. }
  split; [|intros st1 Hc; split].
  - destruct (check_first_request self request st) as [[[]|e] st1] eqn:Hc.
    + destruct (find_handler self request st1)
        as [[[handler view_args]|e] s1] eqn:Hf.
      * destruct (handler_response [inject request] self request handler
                    view_args s1) as [[response|e] s2] eqn:Hr.
        -- destruct (is_null_session (session handler)) eqn:Hn.
           ++ left. rewrite (Hnull _ _ _ _ _ _ eq_refl Hf Hr Hn). simpl.
              by rewrite (Hresp _ _ _ _ _ Hr), (Hfind _ _ _ Hf), (Hcheck _ _ eq_refl).
           ++ right. exists st1, handler, view_args, s1, response.
              split_and!; [done..|].
              rewrite (Hsaved _ _ _ _ _ _ eq_refl Hf Hr Hn). simpl.
              rewrite saved_sessions_session_saved.
              by rewrite (Hresp _ _ _ _ _ Hr), (Hfind _ _ _ Hf), (Hcheck _ _ eq_refl).
        -- left. rewrite (process_request_handler _ _ _ _ _ _ _ Hc Hf).
           unfold st_bind at 1. rewrite Hr. simpl.
           by rewrite (Hresp _ _ _ _ _ Hr), (Hfind _ _ _ Hf), (Hcheck _ _ eq_refl).
      * left. rewrite (process_request_no_handler _ _ _ _ _ _ Hc Hf).
        unfold st_bind, st_lift.
        destruct (handle_user_exception [inject request] self request e s1)
          as [[response|e'] s2] eqn:Hu; simpl;
          by rewrite (Huser _ _ _ _ Hu), (Hfind _ _ _ Hf), (Hcheck _ _ eq_refl).
    + left. unfold process_request. unfold st_bind at 1. rewrite Hc. simpl.
      by rewrite (Hcheck _ _ eq_refl).
  - intros e s1 Hf. rewrite (process_request_no_handler _ _ _ _ _ _ Hc Hf).
    unfold st_bind, st_lift. split.
    + destruct (handle_user_exception [inject request] self request e s1)
        as [[response|e'] s2] eqn:Hu; simpl;
        by rewrite (Huser _ _ _ _ Hu), (Hfind _ _ _ Hf), (Hcheck _ _ Hc).
    + intros response s2 Hu. by rewrite Hu.
  - intros handler view_args s1 response s2 Hf Hr. split; intros Hn.
    + rewrite (Hnull _ _ _ _ _ _ Hc Hf Hr Hn). simpl. split; [|done].
      by rewrite (Hresp _ _ _ _ _ Hr), (Hfind _ _ _ Hf), (Hcheck _ _ Hc).
    + rewrite (Hsaved _ _ _ _ _ _ Hc Hf Hr Hn). simpl. split; [|done].
      rewrite saved_sessions_session_saved.
      by rewrite (Hresp _ _ _ _ _ Hr), (Hfind _ _ _ Hf), (Hcheck _ _ Hc).
Qed.

(** One route, to a handler with a session and to one with the null session,
    and no route at all. *)
Lemma session_saved_only_for_handler_session_witness :
  process_request (one_route (Some "user=7")) get_request initial
  = (Ok (Resp 200 "hi" {[ "s" := "user=7" ]}),
     {| _got_first_request := true;
        trace := [Before_first_request get_request; Instantiated "Index";
                  Saved_session (Some "user=7") (ok_response "hi")] |})
  ∧ process_request (one_route None) get_request initial
    = (Ok (ok_response "hi"), routed)
  ∧ saved_sessions (process_request bare_application get_request initial).2
    = [].
Proof.
  split_and!.
  - destruct (session_saved_only_for_handler_session
                (one_route (Some "user=7")) get_request initial) as [_ P].
    destruct (P {| _got_first_request := true;
                   trace := [Before_first_request get_request] |} eq_refl)
      as [_ Q].
    apply (proj2 (proj2 (Q (index_handler (Some "user=7")) ∅ routed
                           (ok_response "hi") routed eq_refl eq_refl)
                    eq_refl)).
  - destruct (session_saved_only_for_handler_session
                (one_route None) get_request initial) as [_ P].
    destruct (P {| _got_first_request := true;
                   trace := [Before_first_request get_request] |} eq_refl)
      as [_ Q].
    apply (proj2 (proj1 (Q (index_handler None) ∅ routed
                           (ok_response "hi") routed eq_refl eq_refl)
                    eq_refl)).
  - destruct (session_saved_only_for_handler_session
                bare_application get_request initial) as [_ P].
    destruct (P {| _got_first_request := true;
                   trace := [Before_first_request get_request] |} eq_refl)
      as [Q _].
    apply (proj1 (Q NotFound
                    {| _got_first_request := true;
                       trace := [Before_first_request get_request] |}
                    eq_refl)).
Defined.

(** * Further properties *)

(** ** What [get_value] can raise *)

Lemma process_raises data ps kw e :
  processors.process data ps kw = Raise e → ∃ err, e = processors_Error err.
Proof.
  intros E. pose proof (process_validation_only data ps kw) as V.
  rewrite E in V. destruct e; try discriminate V. eauto.
Qed.

Lemma raise_required_raises self o :
  raise_required self = o →
  ∃ e, o = Raise e ∧ form_exception e.
Proof.
  unfold raise_required, required_message. intros <-.
  destruct (messages self !! "required"); simpl;
    eexists; (split; [reflexivity | exact I]).
Qed.

Lemma Widget_from_form_raises self x e :
  Widget.from_form self x = Raise e → form_exception e.
Proof.
  unfold Widget.from_form. destruct x as [f|r]; simpl.
  - destruct (form_request f) as [r|]; simpl; [|by intros [= <-]].
    destruct (_ && _).
    + intros E. apply raise_required_raises in E as (e' & [= <-] & He). done.
    + intros E. apply process_raises in E as [err ->]. done.
  - by intros [= <-].
Qed.

Lemma text_from_form_raises self x e :
  Input.from_form self x = Raise e → form_exception e.
Proof.
  unfold Input.from_form, getattr_form, Form_getitem.
  destruct x as [f|r]; simpl.
  - destruct (form_data f !! "form"); simpl; by intros [= <-].
  - unfold get_or_no_value. destruct (req_form r !! name self); simpl.
    + destruct (_ && _); [|done].
      intros E. apply raise_required_raises in E as (e' & [= <-] & He). done.
    + destruct (required self); simpl; [|done].
      intros E. apply raise_required_raises in E as (e' & [= <-] & He). done.
Qed.

Lemma File_from_form_raises self x e :
  File.from_form self x = Raise e → form_exception e.
Proof.
  unfold File.from_form, getattr_files, Form_getitem.
  destruct x as [f|r]; simpl.
  - destruct (form_data f !! "files"); simpl; by intros [= <-].
  - destruct (_ && _); [|done].
    intros E. apply raise_required_raises in E as (e' & [= <-] & He). done.
Qed.

Lemma self_from_form_raises self x e :
  Widget.self_from_form self x = Raise e → form_exception e.
Proof.
  unfold Widget.self_from_form.
  destruct (cls self);
    first [ apply Widget_from_form_raises | apply text_from_form_raises
          | apply File_from_form_raises ].
Qed.

Lemma get_value_raises self f e :
  Widget.get_value self f = Raise e → form_exception e.
Proof.
  unfold Widget.get_value.
  destruct (Widget.self_from_form self (AForm f)) as [v|e'] eqn:E; simpl.
  - unfold Widget.process_out. intros P.
    apply process_raises in P as [err ->]. done.
  - intros [= <-]. by eapply self_from_form_raises.
Qed.

(** ** How the loop of [Form.process] ends *)

Section FormLoopExit.
Variable f : Form.

(** An exception that ends the loop was raised by [get_value] of a widget,
    and is no validation failure. *)
Lemma loop_raised items : ∀ st e,
  (Form.loop f items st).2 = Some e →
  ∃ n w, (n, w) ∈ items ∧ Widget.get_value w f = Raise e
         ∧ validation_only (Widget.get_value w f) = false.
Proof.
  induction items as [|[n w] items IH]; intros st e; simpl; [done|].
  destruct (Widget.get_value w f) as [v|e'] eqn:G.
  - intros L. destruct (IH _ _ L) as (n' & w' & Hin & G' & V').
    exists n', w'. split; [by apply elem_of_cons; right | done].
  - destruct e' as [err| | | | | | | | | |];
      try (intros [= <-]; exists n, w; rewrite G;
           split; [by apply elem_of_cons; left | done]).
    intros L. destruct (IH _ _ L) as (n' & w' & Hin & G' & V').
    exists n', w'. split; [by apply elem_of_cons; right | done].
Qed.

(** The loop runs to its end only when every widget returned or raised a
    validation failure. *)
Lemma loop_completes items : ∀ st,
  (Form.loop f items st).2 = None →
  Forall (λ nw, validation_only (Widget.get_value nw.2 f) = true) items.
Proof.
  induction items as [|[n w] items IH]; intros st; simpl; [by constructor|].
  destruct (Widget.get_value w f) as [v|e'] eqn:G.
  - intros L. constructor; [simpl; by rewrite G | by eapply IH].
  - destruct e' as [err| | | | | | | | | |]; try discriminate.
    intros L. constructor; [simpl; by rewrite G | by eapply IH].
Qed.

Lemma run_widgets_completes :
  (Form.run_widgets f).2 = None →
  ∀ n w, form_data f !! n = Some w →
         validation_only (Widget.get_value w f) = true.
Proof.
  intros L n w Hw. apply loop_completes in L.
  rewrite Forall_forall in L. apply (L (n, w)).
  by apply elem_of_map_to_list.
Qed.

(** What [Form.process] raises when the loop was left. *)
Lemma process_loop_left e :
  (Form.run_widgets f).2 = Some e →
  ∀ obj kw, Form.process f obj kw = Raise e.
Proof.
  intros L obj kw. unfold Form.process.
  destruct (Form.run_widgets f) as [st raised]. simpl in L. by subst.
Qed.
End FormLoopExit.

(** X1. When [Form.process] raises [FormError], the errors it carries are
    not empty and are those of the form: an entry for each widget whose
    [get_value] raised a validation failure, that failure, and no other
    entry; [error_dict] holds the message of each. *)
Theorem FormError_carries_the_failures (f : Form) (obj : pyval)
    (kw : gmap string pyval) (errs : gmap string Error) :
  Form.process f obj kw = Raise (FormError errs) →
  errs ≠ ∅
  ∧ (∀ n e, errs !! n = Some e ↔
            ∃ w, form_data f !! n = Some w
                 ∧ Widget.get_value w f = Raise (processors_Error e))
  ∧ (∀ n m, error_dict errs !! n = Some m ↔
            ∃ w c, form_data f !! n = Some w
                   ∧ Widget.get_value w f
                     = Raise (processors_Error (mkError c m))).
Proof.
  intros P. destruct (Form.run_widgets f).2 as [e|] eqn:L.
  { rewrite (process_loop_left f e L) in P. injection P as ->.
    apply loop_raised in L as (n & w & _ & G & _).
    by apply get_value_raises in G. }
  pose proof (run_widgets_completes f L) as HV.
  destruct (run_widgets_spec f HV) as (st & R & A & E & _).
  unfold Form.process in P. rewrite R in P.
  destruct (0 <? size (Form.errors st))%nat eqn:S.
  - injection P as <-. apply Nat.ltb_lt in S.
    assert (Hchar : ∀ n e, Form.errors st !! n = Some e ↔
              ∃ w, form_data f !! n = Some w
                   ∧ Widget.get_value w f = Raise (processors_Error e)).
    { intros n e. rewrite E. split.
      - destruct (form_data f !! n) as [w|]; simpl; [|done].
        intros Hw. exists w. split; [done|].
        destruct (Widget.get_value w f) as [|[]]; simpl in Hw; congruence.
      - intros (w & Hw & G). rewrite Hw. simpl. by rewrite G. }
    split_and!; [apply map_size_non_empty_iff; lia | done |].
    intros n m. unfold error_dict. rewrite lookup_fmap, fmap_Some. split.
    + intros ([c m'] & He & ->). apply Hchar in He as (w & Hw & G).
      by exists w, c.
    + intros (w & c & Hw & G). exists (mkError c m). split; [|done].
      apply Hchar. by exists w.
  - by apply process_not_FormError in P.
Qed.

Lemma FormError_carries_the_failures_witness :
  error_dict {[ "title" := mkError "required" "This field is required" ]}
    !! "title"
  = Some "This field is required"
  ∧ Widget.get_value title_widget (form_of two_widgets (Some body_only))
    = Raise (required_error "This field is required").
Proof.
  destruct (FormError_carries_the_failures
              (form_of two_widgets (Some body_only)) VNone ∅
              {[ "title" := mkError "required" "This field is required" ]}
              eq_refl) as (_ & P & Q).
  split; [reflexivity|].
  destruct (proj1 (P "title" (mkError "required" "This field is required"))
              eq_refl) as (w & Hw & G).
  injection Hw as <-. exact G.
Defined.

(** X2. When [Form.process] returns a value, [get_value] of every widget
    of the form returned one: no failure of a widget is passed over. *)
Theorem process_returns_only_without_failure (f : Form) (obj : pyval)
    (kw : gmap string pyval) (v : pyval) :
  Form.process f obj kw = Ok v →
  ∀ n w, form_data f !! n = Some w →
         ∃ v', Widget.get_value w f = Ok v'.
Proof.
  intros P n w Hw. destruct (Form.run_widgets f).2 as [e|] eqn:L.
  { by rewrite (process_loop_left f e L) in P. }
  pose proof (run_widgets_completes f L) as HV.
  destruct (run_widgets_spec f HV) as (st & R & A & E & _).
  unfold Form.process in P. rewrite R in P.
  destruct (0 <? size (Form.errors st))%nat eqn:S; [done|].
  apply Nat.ltb_ge in S.
  assert (Hnil : Form.errors st = ∅) by (apply map_size_empty_iff; lia).
  specialize (E n). rewrite Hnil, lookup_empty, Hw in E. simpl in E.
  specialize (HV n w Hw).
  destruct (Widget.get_value w f) as [v'|[]]; try done. by exists v'.
Qed.

Lemma process_returns_only_without_failure_witness :
  ∃ v', Widget.get_value title_widget (form_of two_widgets (Some both_fields))
        = Ok v'.
Proof.
  apply (process_returns_only_without_failure
           (form_of two_widgets (Some both_fields)) VNone ∅
           (VDict {[ "obj" := VNone;
                     "formdata" := VDict {[ "title" := VForm;
                                            "body" := VForm ]} ]})
           eq_refl "title" title_widget eq_refl).
Defined.

(** ** Text inputs and file widgets inside a form *)

(** [get_value] hands the form to [from_form]; where [Input.from_form] and
    [Textarea.from_form] read [request.form], the form looks for a widget
    named [form]. *)
Lemma get_value_text_input self f :
  text_input (cls self) = true →
  Widget.get_value self f
  = match form_data f !! "form" with
    | None => Raise (KeyError "form")
    | Some _ => Raise (AttributeError "RenderContext" "get")
    end.
Proof.
  intros Hc. unfold Widget.get_value, Widget.self_from_form.
  destruct (cls self); try discriminate Hc;
    unfold Input.from_form, Textarea.from_form, getattr_form, Form_getitem;
    by destruct (form_data f !! "form").
Qed.

Lemma get_value_file self f :
  cls self = CFile →
  Widget.get_value self f
  = match form_data f !! "files" with
    | None => Raise (KeyError "files")
    | Some _ => Raise (AttributeError "RenderContext" "get")
    end.
Proof.
  intros Hc. unfold Widget.get_value, Widget.self_from_form. rewrite Hc.
  unfold File.from_form, getattr_files, Form_getitem.
  by destruct (form_data f !! "files").
Qed.

(** The loop stops at a widget that raises something else than a
    validation failure, if not before. *)
Lemma loop_stops f items : ∀ st n w,
  (n, w) ∈ items →
  validation_only (Widget.get_value w f) = false →
  ∃ e, (Form.loop f items st).2 = Some e.
Proof.
  induction items as [|[n' w'] items IH]; intros st n w Hin V.
  - by apply elem_of_nil in Hin.
  - simpl. apply elem_of_cons in Hin as [[= <- <-]|Hin].
    + destruct (Widget.get_value w f) as [v|[]]; try discriminate V;
        simpl; eauto.
    + destruct (Widget.get_value w' f) as [v|[]]; simpl; eauto.
Qed.

(** X3. A form that holds a text input ([Input], [Text], [Password],
    [Email], [URL], [DatePicker], [Textarea]) or a [File] widget cannot be
    processed: [Form.process] raises a [KeyError] or an [AttributeError],
    whatever was submitted; it neither returns nor raises [FormError]. *)
Theorem process_fails_on_text_input (f : Form) (obj : pyval)
    (kw : gmap string pyval) (n : string) (w : Widget) :
  form_data f !! n = Some w →
  text_input (cls w) = true ∨ cls w = CFile →
  ∃ e, Form.process f obj kw = Raise e
       ∧ ((∃ k, e = KeyError k) ∨ (∃ o a, e = AttributeError o a)).
Proof.
  intros Hw Hc.
  assert (V : validation_only (Widget.get_value w f) = false).
  { destruct Hc as [Hc|Hc].
    - rewrite (get_value_text_input _ _ Hc). by destruct (form_data f !! "form").
    - rewrite (get_value_file _ _ Hc). by destruct (form_data f !! "files"). }
  destruct (loop_stops f (map_to_list (form_data f)) Form.start n w) as [e L];
    [by apply elem_of_map_to_list | done |].
  exists e. split; [by apply process_loop_left|].
  apply loop_raised in L as (n' & w' & _ & G & V').
  rewrite G in V'. apply get_value_raises in G.
  destruct e; try done; eauto.
Qed.

Lemma process_fails_on_text_input_witness :
  ∃ e, Form.process email_form VNone ∅ = Raise e
       ∧ ((∃ k, e = KeyError k) ∨ (∃ o a, e = AttributeError o a)).
Proof.
  apply (process_fails_on_text_input email_form VNone ∅ "email" email_widget).
  - reflexivity.
  - left. reflexivity.
Defined.

(** ** Plain widgets inside a form *)

(** X4. In a form of plain widgets ([Widget], [Checkbox], [Select]) without
    outgoing processors, submitted with every required field present,
    [Form.process] returns under ["formdata"] the form object for every
    widget name, whatever text was submitted: [Widget.from_form] passes the
    form, not the submitted value, as the value to process. *)
Theorem process_plain_widgets_yield_the_form (f : Form) (r : Request)
    (obj : pyval) (kw : gmap string pyval) :
  form_request f = Some r →
  form_processors_out f = [] →
  (∀ n w, form_data f !! n = Some w →
          plain_widget (cls w) = true
          ∧ processors_out w = []
          ∧ (required w = true → is_Some (req_form r !! name w))) →
  Form.process f obj kw
  = Ok (VDict {[ "obj" := obj;
                 "formdata" := VDict ((λ _, VForm) <$> form_data f) ]}).
Proof.
  intros Hr Hout Hall.
  assert (G : ∀ n w, form_data f !! n = Some w →
                     Widget.get_value w f = Ok VForm).
  { intros n w Hw. destruct (Hall n w Hw) as (Hc & Hp & Hq).
    unfold Widget.get_value.
    assert (E : Widget.self_from_form w (AForm f) = Ok VForm).
    { assert (E' : Widget.from_form w (AForm f) = Ok VForm).
      { unfold Widget.from_form, Widget.process_out, get_or_no_value. simpl.
        rewrite Hr, Hp. simpl.
        destruct (req_form r !! name w) as [s|] eqn:Hs; simpl; [done|].
        destruct (required w); simpl; [|done].
        destruct Hq as [s Hs']; [done | discriminate]. }
      unfold Widget.self_from_form. by destruct (cls w). }
    rewrite E. simpl. unfold Widget.process_out. by rewrite Hp. }
  assert (HV : ∀ n w, form_data f !! n = Some w →
                      validation_only (Widget.get_value w f) = true).
  { intros n w Hw. by rewrite (G n w Hw). }
  destruct (run_widgets_spec f HV) as (st & L & A & E & R).
  assert (Hnil : Form.errors st = ∅).
  { apply map_eq. intros k. rewrite E, lookup_empty.
    destruct (form_data f !! k) as [w|] eqn:Hw; simpl; [|done].
    by rewrite (G k w Hw). }
  assert (Hres : Form.result st = (λ _, VForm) <$> form_data f).
  { apply map_eq. intros k. rewrite R, lookup_fmap.
    destruct (form_data f !! k) as [w|] eqn:Hw; simpl; [|done].
    by rewrite (G k w Hw). }
  unfold Form.process. by rewrite L, Hnil, Hres, Hout.
Qed.

Lemma process_plain_widgets_yield_the_form_witness :
  Form.process (form_of two_widgets (Some both_fields)) (VObj 7) ∅
  = Ok (VDict {[ "obj" := VObj 7;
                 "formdata" := VDict {[ "title" := VForm; "body" := VForm ]} ]}).
Proof.
  rewrite (process_plain_widgets_yield_the_form
             (form_of two_widgets (Some both_fields)) both_fields (VObj 7) ∅
             eq_refl eq_refl).
  - reflexivity.
  - intros n w Hl. each_widget Hl.
Defined.

(** ** The loop of [Form.process], without other exceptions *)

(** X23. [Form.process] calls [get_value] of a widget whenever the widgets
    before it, in the order of the loop, returned a value or raised a
    validation failure: validation failures, however many, never keep the
    loop from the remaining widgets. As long as no widget raises anything
    but a validation failure, [get_value] of every widget of the form is
    called, once each; the failures are collected by widget name, one entry
    for each failing widget and no other; and [Form.process] raises
    [FormError] exactly when that collection is not empty, with the whole
    collection in it. *)
Theorem process_collects_every_error (f : Form) (obj : pyval)
    (kw : gmap string pyval) :
  let st := (Form.run_widgets f).1 in
  (∀ pre n w post,
     map_to_list (form_data f) = (pre ++ (n, w) :: post)%list →
     Forall (λ nw, validation_only (Widget.get_value nw.2 f) = true) pre →
     n ∈ Form.attempted st)
  ∧ ((∀ n w, form_data f !! n = Some w →
             validation_only (Widget.get_value w f) = true) →
     (∀ n, n ∈ Form.attempted st ↔ is_Some (form_data f !! n))
     ∧ length (Form.attempted st) = size (form_data f)
     ∧ (∀ n e, Form.errors st !! n = Some e ↔
               ∃ w, form_data f !! n = Some w
                    ∧ Widget.get_value w f = Raise (processors_Error e))
     ∧ (∀ errs, Form.process f obj kw = Raise (FormError errs) ↔
                errs = Form.errors st ∧ Form.errors st ≠ ∅)).
Proof.
  intros st. subst st. split.
  { intros pre n w post Hitems HV. unfold Form.run_widgets.
    rewrite Hitems. by apply loop_reaches. }
  intros HV. destruct (run_widgets_spec f HV) as (st & L & A & E & R).
  unfold Form.process. rewrite L. simpl. split_and!.
  - intros n. rewrite A. split.
    + intros Hin. apply list_elem_of_fmap in Hin as ([k w] & -> & Hin).
      apply elem_of_map_to_list in Hin. by exists w.
    + intros [w Hw]. apply list_elem_of_fmap. exists (n, w).
      split; [done|]. by apply elem_of_map_to_list.
  - by rewrite A, length_fmap, length_map_to_list.
  - intros n e. rewrite E. split.
    + destruct (form_data f !! n) as [w|]; simpl; [|done].
      intros Hw. exists w. split; [done|].
      destruct (Widget.get_value w f) as [|[]]; simpl in Hw; congruence.
    + intros (w & Hw & G). rewrite Hw. simpl. by rewrite G.
  - intros errs. destruct (0 <? size (Form.errors st))%nat eqn:S.
    + apply Nat.ltb_lt in S.
      assert (Form.errors st ≠ ∅) by (apply map_size_non_empty_iff; lia).
      split; [by intros [= <-] | by intros [-> _]].
    + apply Nat.ltb_ge in S. split.
      * intros Hp. by apply process_not_FormError in Hp.
      * intros [_ Hne]. apply map_size_non_empty_iff in Hne. lia.
Qed.

(** The form of two required widgets, submitted without the first: both
    widgets are called, and the error raised names the first alone. *)
Lemma process_collects_every_error_witness :
  Form.attempted (Form.run_widgets (form_of two_widgets (Some body_only))).1
  ≡ₚ ["title"; "body"]
  ∧ Form.process (form_of two_widgets (Some body_only)) VNone ∅
    = Raise (FormError {[ "title" :=
               mkError "required" "This field is required" ]}).
Proof.
  assert (HV : ∀ n w,
    form_data (form_of two_widgets (Some body_only)) !! n = Some w →
    validation_only
      (Widget.get_value w (form_of two_widgets (Some body_only))) = true).
  { intros n w Hl. each_widget Hl. }
  destruct (proj2 (process_collects_every_error
                     (form_of two_widgets (Some body_only)) VNone ∅) HV)
    as (_ & _ & _ & P).
  split.
  - vm_compute. first [reflexivity | apply Permutation_swap].
  - apply P. split; [by vm_compute | by vm_compute].
Defined.

(** X24. When [get_value] of every widget of the form yields a value,
    [Form.process] leaves no error, builds the envelope of the object
    passed in, as it is, under ["obj"] and of what [get_value] yielded, by
    widget name, under ["formdata"], and returns what the form-level
    outgoing processors make of that envelope: the envelope itself when
    the form has no such processor. *)
Theorem process_returns_envelope (f : Form) (obj : pyval)
    (kw : gmap string pyval) :
  (∀ n w, form_data f !! n = Some w →
          is_Some (value_of (Widget.get_value w f))) →
  let st := (Form.run_widgets f).1 in
  Form.errors st = ∅
  ∧ (∀ n v, Form.result st !! n = Some v ↔
            ∃ w, form_data f !! n = Some w ∧ Widget.get_value w f = Ok v)
  ∧ Form.process f obj kw
    = processors.process
        (VDict {[ "obj" := obj; "formdata" := VDict (Form.result st) ]})
        (form_processors_out f) kw
  ∧ (form_processors_out f = [] →
     Form.process f obj kw = Ok (envelope obj (Form.result st))).
Proof.
  intros HOk.
  assert (HV : ∀ n w, form_data f !! n = Some w →
                      validation_only (Widget.get_value w f) = true).
  { intros n w Hw. destruct (HOk n w Hw) as [v Hv].
    by destruct (Widget.get_value w f). }
  destruct (run_widgets_spec f HV) as (st & L & A & E & R).
  assert (Hnil : Form.errors st = ∅).
  { apply map_eq. intros k. rewrite E, lookup_empty.
    destruct (form_data f !! k) as [w|] eqn:Hw; simpl; [|done].
    destruct (HOk k w Hw) as [v Hv]. by destruct (Widget.get_value w f). }
  assert (P : Form.process f obj kw
              = processors.process (envelope obj (Form.result st))
                  (form_processors_out f) kw).
  { unfold Form.process. rewrite L, Hnil. reflexivity. }
  rewrite L. simpl. split_and!; [done| |done|].
  - intros n v. rewrite R. split.
    + destruct (form_data f !! n) as [w|]; simpl; [|done].
      intros Hv. exists w. split; [done|].
      destruct (Widget.get_value w f); simpl in Hv; congruence.
    + intros (w & Hw & G). rewrite Hw. simpl. by rewrite G.
  - intros Hout. by rewrite P, Hout.
Qed.

(** The sample form submitted with both fields, for the object [VObj 7]. *)
Lemma process_returns_envelope_witness :
  Form.process (form_of two_widgets (Some both_fields)) (VObj 7) ∅
  = Ok (envelope (VObj 7)
          (Form.result (Form.run_widgets
             (form_of two_widgets (Some both_fields))).1)).
Proof.
  assert (HOk : ∀ n w,
    form_data (form_of two_widgets (Some both_fields)) !! n = Some w →
    is_Some (value_of
      (Widget.get_value w (form_of two_widgets (Some both_fields))))).
  { intros n w Hl. each_widget Hl. }
  destruct (process_returns_envelope
              (form_of two_widgets (Some both_fields)) (VObj 7) ∅ HOk)
    as (_ & _ & _ & P).
  apply P. reflexivity.
Defined.

(** ** The displayed value, with a request *)

(** X5. For a form that has a request, [get_widget_value] yields the
    submitted text whenever the field was submitted, the empty text too,
    and only otherwise looks into the defaults; [to_form], on the render
    context [Widget.__call__] builds for the form, computes the same value
    and runs the incoming processors of the widget on it, with the context
    attributes of the form as keyword arguments. A context attribute named
    [self] or [value] is a second value for a parameter of [process_in]:
    then [to_form] raises [TypeError] once the value is computed. *)
Theorem widget_value_with_request (self : Widget) (f : Form) (r : Request) :
  form_request f = Some r →
  Widget.get_widget_value self f
  = match req_form r !! name self with
    | Some s => Ok (VStr s)
    | None => Widget.default_get (form_default f) (name self)
    end
  ∧ (form_ctx f !! "self" = None →
     form_ctx f !! "value" = None →
     Widget.to_form self (RenderContext_init self f ∅)
     = Widget.get_widget_value self f
         ≫= λ v, processors.process v (processors_in self) (form_ctx f))
  ∧ (is_Some (form_ctx f !! "self") ∨ is_Some (form_ctx f !! "value") →
     Widget.to_form self (RenderContext_init self f ∅)
     = Widget.get_widget_value self f
         ≫= λ _, Raise (TypeError
              "process_in() got multiple values for keyword argument")).
Proof.
  intros Hr. unfold Widget.to_form, Widget.get_widget_value. simpl.
  rewrite Hr. simpl. unfold get_or_no_value.
  assert (Hctx : (∅ : gmap string pyval) ∪ form_ctx f = form_ctx f)
    by apply (left_id_L ∅ (∪)).
  rewrite Hctx. unfold Widget.call_process_in, Widget.process_in.
  split_and!.
  - by destruct (req_form r !! name self).
  - intros -> ->.
    destruct (req_form r !! name self) as [s|]; simpl; [done|].
    by destruct (Widget.default_get _ _).
  - intros Hkey.
    assert (Hsplat : ∀ v,
      match form_ctx f !! "self", form_ctx f !! "value" with
      | None, None => processors.process v (processors_in self) (form_ctx f)
      | _, _ =>
          Raise (TypeError
                   "process_in() got multiple values for keyword argument")
      end
      = Raise (TypeError
                 "process_in() got multiple values for keyword argument")).
    { intros v. destruct Hkey as [[x ->]|[x ->]]; [done|].
      by destruct (form_ctx f !! "self"). }
    destruct (req_form r !! name self) as [s|]; simpl; [apply Hsplat|].
    destruct (Widget.default_get _ _); simpl; [apply Hsplat | done].
Qed.

Lemma widget_value_with_request_witness :
  Widget.get_widget_value title_widget
    (form_of two_widgets (Some empty_title))
  = Ok (VStr "")
  ∧ Widget.get_widget_value title_widget
      {| form_default := VDict {[ "title" := VStr "Untitled" ]};
         form_request := Some body_only; form_errors := ∅;
         form_data := two_widgets; form_ctx := ∅;
         form_processors_in := []; form_processors_out := [] |}
    = Ok (VStr "Untitled")
  ∧ Widget.to_form title_widget
      (RenderContext_init title_widget value_in_context ∅)
    = Raise (TypeError
               "process_in() got multiple values for keyword argument").
Proof.
  split_and!.
  - etrans;
      [apply (proj1 (widget_value_with_request title_widget
                       (form_of two_widgets (Some empty_title)) empty_title
                       eq_refl))
      | reflexivity].
  - etrans;
      [apply (proj1 (widget_value_with_request title_widget
                       {| form_default := VDict {[ "title" := VStr "Untitled" ]};
                          form_request := Some body_only; form_errors := ∅;
                          form_data := two_widgets; form_ctx := ∅;
                          form_processors_in := [];
                          form_processors_out := [] |}
                       body_only eq_refl))
      | reflexivity].
  - etrans;
      [apply (proj2 (proj2 (widget_value_with_request title_widget
                              value_in_context both_fields eq_refl)))
      | reflexivity].
    right. by eexists.
Defined.

(** ** White space *)

Lemma lstrip_empty s : lstrip s = "" ↔ all_space s = true.
Proof.
  induction s as [|c s IH]; simpl; [done|].
  destruct (isspace c); simpl; [done|]. split; discriminate.
Qed.

Lemma all_space_rev_app s1 : ∀ s2,
  all_space (strings.String.rev_app s1 s2) = all_space s1 && all_space s2.
Proof.
  induction s1 as [|c s1 IH]; intros s2; simpl; [done|].
  rewrite IH. simpl. by destruct (isspace c), (all_space s1), (all_space s2).
Qed.

Lemma all_space_rev s : all_space (String.rev s) = all_space s.
Proof.
  unfold String.rev. rewrite all_space_rev_app. simpl.
  by rewrite andb_true_r.
Qed.

Lemma rev_app_empty s1 : ∀ s2,
  strings.String.rev_app s1 s2 = "" → s1 = "" ∧ s2 = "".
Proof.
  induction s1 as [|c s1 IH]; intros s2; simpl; [done|].
  intros E. by apply IH in E as [_ ?].
Qed.

Lemma rev_empty s : String.rev s = "" ↔ s = "".
Proof.
  split; [|by intros ->]. unfold String.rev. intros E.
  by apply rev_app_empty in E as [? _].
Qed.

(** [s.strip()] is empty when [s] is white space throughout, and only
    then. *)
Lemma strip_empty s : strip s = "" ↔ all_space s = true.
Proof.
  unfold strip, rstrip. rewrite rev_empty, lstrip_empty, all_space_rev.
  split.
  - induction s as [|c s IH]; [done|]. simpl.
    destruct (isspace c) eqn:Hc; simpl; [done|]. by rewrite Hc.
  - intros Ha. apply lstrip_empty in Ha. by rewrite Ha.
Qed.

(** ** Text inputs, read from a request *)

(** X6. [from_form] of a text input, read from a request. When the widget
    is required and has a required message, it raises the [required] error
    exactly when the field is absent or holds nothing but white space. When
    it raises nothing it returns what was submitted, unstripped: the text as
    it is, or the sentinel [no_value] for an absent field. *)
Theorem text_input_from_request (self : Widget) (r : Request) (m : string) :
  text_input (cls self) = true →
  messages self !! "required" = Some m →
  (required self = true →
   (Widget.self_from_form self (ARequest r) = Raise (required_error m) ↔
    match req_form r !! name self with
    | None => True
    | Some s => all_space s = true
    end))
  ∧ (∀ v, Widget.self_from_form self (ARequest r) = Ok v →
          v = match req_form r !! name self with
              | Some s => VStr s
              | None => no_value
              end)
  ∧ (required self = false →
     Widget.self_from_form self (ARequest r)
     = Ok match req_form r !! name self with
          | Some s => VStr s
          | None => no_value
          end).
Proof.
  intros Hc Hm.
  assert (E : Widget.self_from_form self (ARequest r)
              = match req_form r !! name self with
                | Some s =>
                    if all_space s && required self
                    then Raise (required_error m) else Ok (VStr s)
                | None =>
                    if required self
                    then Raise (required_error m) else Ok no_value
                end).
  { set (rhs := match req_form r !! name self with
                | Some s =>
                    if all_space s && required self
                    then Raise (required_error m) else Ok (VStr s)
                | None =>
                    if required self
                    then Raise (required_error m) else Ok no_value
                end).
    assert (E' : Input.from_form self (ARequest r) = rhs); [|
      unfold Widget.self_from_form; destruct (cls self);
      try discriminate Hc; exact E'].
    subst rhs. unfold Input.from_form, get_or_no_value. simpl.
    destruct (req_form r !! name self) as [s|]; simpl.
    - destruct (String.eqb (strip s) "") eqn:Hs.
      + apply String.eqb_eq, strip_empty in Hs. rewrite Hs. simpl.
        destruct (required self); [|done]. by apply raise_required_eq.
      + assert (all_space s = false) as ->.
        { destruct (all_space s) eqn:Ha; [|done].
          apply strip_empty in Ha. rewrite Ha in Hs. discriminate. }
        done.
    - destruct (required self); [|done]. by apply raise_required_eq. }
  rewrite E. split_and!.
  - intros ->. destruct (req_form r !! name self) as [s|]; [|done].
    rewrite andb_true_r. by destruct (all_space s).
  - intros v. destruct (req_form r !! name self) as [s|].
    + destruct (_ && _); congruence.
    + destruct (required self); congruence.
  - intros ->. destruct (req_form r !! name self) as [s|]; [|done].
    by rewrite andb_false_r.
Qed.

Lemma text_input_from_request_witness :
  Widget.self_from_form email_widget
    (ARequest (submit {[ "email" := "  " ]}))
  = Raise (required_error "This field is required")
  ∧ Widget.self_from_form nickname_widget
      (ARequest (submit {[ "nickname" := " Al " ]}))
    = Ok (VStr " Al ")
  ∧ Widget.self_from_form nickname_widget (ARequest (submit ∅))
    = Ok no_value.
Proof.
  split_and!.
  - apply (proj1 (text_input_from_request email_widget
                    (submit {[ "email" := "  " ]}) "This field is required"
                    eq_refl eq_refl) eq_refl).
    reflexivity.
  - etrans;
      [apply (proj2 (proj2 (text_input_from_request nickname_widget
                              (submit {[ "nickname" := " Al " ]})
                              "This field is required" eq_refl eq_refl))
                eq_refl)
      | reflexivity].
  - etrans;
      [apply (proj2 (proj2 (text_input_from_request nickname_widget
                              (submit ∅) "This field is required"
                              eq_refl eq_refl))
                eq_refl)
      | reflexivity].
Defined.

(** ** The widgets of a form, by name *)

Section FormData.
Lemma store_lookup_other widgets : ∀ d n,
  (∀ w, w ∈ widgets → name w ≠ n) → store d widgets !! n = d !! n.
Proof.
  induction widgets as [|w widgets IH]; intros d n Hne; [done|].
  simpl. rewrite IH.
  - apply lookup_insert_ne, Hne. by left.
  - intros w' Hin. apply Hne. by right.
Qed.

Lemma store_lookup_Some widgets : ∀ d n w,
  store d widgets !! n = Some w →
  (name w = n ∧ w ∈ widgets) ∨ d !! n = Some w.
Proof.
  induction widgets as [|w' widgets IH]; intros d n w; simpl; [by right|].
  intros Hs. apply IH in Hs as [[? ?]|Hs].
  - left. split; [done | by right].
  - destruct (decide (name w' = n)) as [<-|Hne].
    + rewrite lookup_insert_eq in Hs. injection Hs as <-. left.
      split; [done | by left].
    + rewrite lookup_insert_ne in Hs by done. by right.
Qed.

Lemma store_lookup_last d pre w post :
  (∀ w', w' ∈ post → name w' ≠ name w) →
  store d (pre ++ w :: post) !! name w = Some w.
Proof.
  intros Hne. unfold store. rewrite foldl_app. simpl.
  rewrite (store_lookup_other post _ _ Hne). apply lookup_insert_eq.
Qed.

Lemma store_lookup_is_Some widgets : ∀ d n,
  is_Some (store d widgets !! n) ↔ n ∈ name <$> widgets ∨ is_Some (d !! n).
Proof.
  induction widgets as [|w widgets IH]; intros d n; simpl.
  - split; [by right | intros [Hin|?]; [by apply elem_of_nil in Hin | done]].
  - rewrite IH, elem_of_cons. destruct (decide (n = name w)) as [->|Hne].
    + rewrite lookup_insert_eq. split; [intros _; by left; left|].
      intros _. right. by eexists.
    + rewrite lookup_insert_ne by done.
      split; (intros [Hin|Hd]; [left|by right]); [by right|].
      by destruct Hin as [?|?].
Qed.

(** X7. [Form.__init__] raises nothing but a validation failure of the
    form's incoming processors. The form it builds holds the request, the
    errors and the context it was given and the processed defaults; its
    dictionary [data] has exactly the names of the widgets as keys, every
    widget under its own name, and for widgets of one name the last of
    them. Subscripting the form with such a name gives a render context for
    that widget with the request and the defaults of the form, and with any
    other name raises [KeyError]. *)
Theorem init_stores_widgets_by_name (widgets : list Widget)
    (processors_in processors_out : list processors.processor)
    (default : pyval) (request : option Request)
    (errors : gmap string Error) (ctx : gmap string pyval) :
  (∀ e, Form.init widgets processors_in processors_out default request
          errors ctx = Raise e →
        ∃ err, e = processors_Error err)
  ∧ (∀ f, Form.init widgets processors_in processors_out default request
            errors ctx = Ok f →
       form_request f = request ∧ form_errors f = errors ∧ form_ctx f = ctx
       ∧ processors.process default processors_in ctx = Ok (form_default f)
       ∧ (∀ n, is_Some (form_data f !! n) ↔ n ∈ name <$> widgets)
       ∧ (∀ n w, form_data f !! n = Some w → name w = n ∧ w ∈ widgets)
       ∧ (∀ pre w post,
            widgets = (pre ++ w :: post)%list →
            (∀ w', w' ∈ post → name w' ≠ name w) →
            form_data f !! name w = Some w)
       ∧ (∀ n,
            match Form_getitem f n with
            | Ok rc =>
                n ∈ (name <$> widgets) ∧ name (rc_widget rc) = n
                ∧ rc_request rc = request
                ∧ rc_default rc = form_default f
            | Raise e => (n ∉ name <$> widgets) ∧ e = KeyError n
            end)).
Proof.
  unfold Form.init. split.
  - intros e. destruct (processors.process default processors_in ctx)
      as [d|e'] eqn:P; simpl; [done|].
    intros [= <-]. by apply process_raises in P.
  - intros f. destruct (processors.process default processors_in ctx)
      as [d|e'] eqn:P; simpl; [|done].
    intros [= <-]. simpl.
    assert (Hkeys : ∀ n, is_Some (store ∅ widgets !! n) ↔ n ∈ name <$> widgets).
    { intros n. rewrite store_lookup_is_Some, lookup_empty.
      split; [intros [?|[? ?]]; done | by left]. }
    assert (Hname : ∀ n w, store ∅ widgets !! n = Some w →
                           name w = n ∧ w ∈ widgets).
    { intros n w Hs. by apply store_lookup_Some in Hs as [?|?]. }
    split_and!; try done.
    + intros pre w post -> Hne. by apply store_lookup_last.
    + intros n. unfold Form_getitem. simpl. fold (store ∅ widgets).
      destruct (store ∅ widgets !! n) as [w|] eqn:Hs; simpl.
      * split_and!; [apply Hkeys; by rewrite Hs | by apply Hname in Hs as [? _] | done..].
      * split; [|done]. rewrite <- Hkeys, Hs. by intros [? ?].
Qed.
End FormData.

(** Two widgets of one name: the later one is the widget of the form. *)
Lemma init_stores_widgets_by_name_witness :
  ∃ f, Form.init [title_widget; body_widget; title_select]
         [] [] (VDict ∅) None ∅ ∅ = Ok f
       ∧ form_data f !! "title" = Some title_select.
Proof.
  eexists. split; [reflexivity|].
  destruct (init_stores_widgets_by_name
              [title_widget; body_widget; title_select]
              [] [] (VDict ∅) None ∅ ∅) as [_ P].
  destruct (P _ eq_refl) as (_ & _ & _ & _ & _ & _ & L & _).
  apply (L [title_widget; body_widget] title_select [] eq_refl).
  intros w' Hin. by apply elem_of_nil in Hin.
Defined.

(** ** [Handler.handle]: before the method is called *)

(** X8. When the handler has an attribute of the name a request dispatches
    to, [Handler.handle] first decodes the flash messages: an exception of
    the decoding is raised with [messages_in] as it was. With the messages
    decoded and bound to [messages_in], a handler without a logger raises
    [AttributeError], keyword arguments without [handler] raise [KeyError],
    and an attribute that is no method raises [TypeError] once the call is
    logged; in none of these cases a method is called. *)
Theorem handle_fails_before_the_call
    (unserialize : string → string → gmap string (list Handler.message))
    (self : Handler.Handler) (r : Request) (m : gmap string string)
    (st : Handler.state) (method : string) (a : Handler.attribute) :
  Handler.request self = Some r →
  attribute_name match req_values r !! "method" with
                 | Some v => Unicode (unicode_lower v)
                 | None => Bytes (lower (req_method r))
                 end = Ok method →
  Handler.attrs self !! method = Some a →
  (∀ e, Handler.decode_messages unserialize self (req_cookies r) = Raise e →
        Handler.handle unserialize self m st
        = (Raise e,
           {| Handler.messages_in := Handler.messages_in st;
              Handler.messages_out := Handler.messages_out st;
              Handler.trace :=
                (Handler.trace st ++ [Handler.Decode_messages])%list |}))
  ∧ (∀ ms, Handler.decode_messages unserialize self (req_cookies r) = Ok ms →
       let decoded :=
         {| Handler.messages_in := ms;
            Handler.messages_out := Handler.messages_out st;
            Handler.trace :=
              (Handler.trace st ++ [Handler.Decode_messages])%list |} in
       (Handler.log self = None →
        Handler.handle unserialize self m st
        = (Raise (AttributeError "NoneType" "debug"), decoded))
       ∧ (∀ lg, Handler.log self = Some lg →
            (m !! "handler" = None →
             Handler.handle unserialize self m st
             = (Raise (KeyError "handler"), decoded))
            ∧ (∀ h v, m !! "handler" = Some h → a = Handler.Plain v →
                 Handler.handle unserialize self m st
                 = (Raise (TypeError "object is not callable"),
                    {| Handler.messages_in := ms;
                       Handler.messages_out := Handler.messages_out st;
                       Handler.trace :=
                         (Handler.trace st
                          ++ [Handler.Decode_messages;
                              Handler.Logged
                                ("calling method " ++ req_method r
                                 ++ " on handler '" ++ h ++ "' ")])%list
                    |})))).
Proof.
  intros Hr Hm Ha. rewrite (handle_lookup _ _ r) by done.
  rewrite lowered_method, Hm, Ha.
  unfold st_bind, st_lift, Handler.emit, Handler.set_messages_in,
    Handler.log_debug, Handler.invoke, st_modify, st_raise. simpl.
  split.
  - by intros e ->.
  - intros ms ->. simpl. split.
    + by intros ->.
    + intros lg ->. split.
      * by intros ->.
      * intros h v -> ->. unfold st_bind, Handler.emit, st_modify, st_raise.
        simpl. by rewrite <- app_assoc.
Qed.

Lemma handle_fails_before_the_call_witness :
  (Handler.handle (λ _ _, ∅) (unlogged_handler get_request)
     {[ "handler" := "index" ]} fresh).1
  = Raise (AttributeError "NoneType" "debug")
  ∧ (Handler.handle (λ _ _, ∅) (get_post_handler (post_as "TEMPLATE"))
       {[ "handler" := "index" ]} fresh).1
    = Raise (TypeError "object is not callable").
Proof.
  split.
  - destruct (handle_fails_before_the_call (λ _ _, ∅)
                (unlogged_handler get_request) get_request
                {[ "handler" := "index" ]} fresh "get"
                (Handler.Callable (λ _ s, (Ok (ok_response "shown"), s)))
                eq_refl eq_refl eq_refl) as [_ P].
    destruct (P [] eq_refl) as [Q _]. by rewrite (Q eq_refl).
  - destruct (handle_fails_before_the_call (λ _ _, ∅)
                (get_post_handler (post_as "TEMPLATE")) (post_as "TEMPLATE")
                {[ "handler" := "index" ]} fresh "template"
                (Handler.Plain (VStr "")) eq_refl eq_refl eq_refl) as [_ P].
    destruct (P [] eq_refl) as [_ Q].
    destruct (Q "starflyer" eq_refl) as [_ T].
    by rewrite (T "index" (VStr "") eq_refl eq_refl).
Defined.

(** ** The flash cookie *)

(** X9. [decode_messages] yields no message when the cookies hold no [m],
    with or without a cookie secret in the settings; with the cookie and
    without the secret it raises [AttributeError], as [encode_messages]
    does. What [encode_messages] makes of a list of messages,
    [decode_messages] reads back from the cookie [m], provided the secure
    cookie of werkzeug reads its own serialization of that list. *)
Theorem messages_round_trip
    (serialize : gmap string (list Handler.message) → string → string)
    (unserialize : string → string → gmap string (list Handler.message))
    (self : Handler.Handler) (cookies : gmap string string) :
  (cookies !! "m" = None →
   Handler.decode_messages unserialize self cookies = Ok [])
  ∧ (Handler.settings self !! "cookie_secret" = None →
     (∀ ms, Flash.encode_messages serialize self ms
            = Raise (AttributeError "settings" "cookie_secret"))
     ∧ (is_Some (cookies !! "m") →
        Handler.decode_messages unserialize self cookies
        = Raise (AttributeError "settings" "cookie_secret")))
  ∧ (∀ secret ms,
       Handler.settings self !! "cookie_secret" = Some secret →
       unserialize (serialize {[ "msg" := ms ]} secret) secret
       = {[ "msg" := ms ]} →
       ∃ c, Flash.encode_messages serialize self ms = Ok c
            ∧ Handler.decode_messages unserialize self (<["m" := c]> cookies)
              = Ok ms).
Proof.
  unfold Handler.decode_messages, Flash.encode_messages. split_and!.
  - by intros ->.
  - intros ->. split; [done|]. by intros [c ->].
  - intros secret ms -> Hrt. eexists. split; [done|].
    rewrite lookup_insert_eq. simpl. by rewrite Hrt, lookup_singleton_eq.
Qed.

Lemma messages_round_trip_witness :
  Handler.decode_messages (λ _ _, {[ "msg" := [saved_message] ]})
    keyed_handler {[ "m" := "signed" ]}
  = Ok [saved_message]
  ∧ Handler.decode_messages (λ _ _, ∅) (unlogged_handler get_request) ∅
    = Ok []
  ∧ Handler.decode_messages (λ _ _, ∅) (unlogged_handler get_request)
      {[ "m" := "signed" ]}
    = Raise (AttributeError "settings" "cookie_secret").
Proof.
  split_and!.
  - destruct (proj2 (proj2 (messages_round_trip (λ _ _, "signed")
                              (λ _ _, {[ "msg" := [saved_message] ]})
                              keyed_handler ∅))
                "k" [saved_message] eq_refl eq_refl) as (c & Hc & Hd).
    injection Hc as <-. exact Hd.
  - apply (proj1 (messages_round_trip (λ _ _, "signed") (λ _ _, ∅)
                    (unlogged_handler get_request) ∅)).
    reflexivity.
  - apply (proj1 (proj2 (messages_round_trip (λ _ _, "signed")
                           (λ _ _, ∅) (unlogged_handler get_request)
                           {[ "m" := "signed" ]}))).
    + reflexivity.
    + by eexists.
Defined.

(** ** Flashing and rendering *)

Section Render.
Variable get_template :
  string → outcome (gmap string Flash.template_value → outcome string).
Variable prepare_render :
  gmap string Flash.template_value
  → outcome (gmap string Flash.template_value).

Lemma render_data_returns values errors kwargs data s :
  prepare_render kwargs = Ok data →
  Flash.render_data prepare_render values errors kwargs s
  = (Ok (template_data values errors data s), Flash.clear_messages_out s).
Proof.
  intros Hp. unfold Flash.render_data, st_bind, st_lift, st_modify, st_ret.
  by rewrite Hp.
Qed.

End Render.





(** X12. [Handler.render] renders the template of the given name, or the
    default template of the class when none is given, with the data
    [prepare_render] made of the keyword arguments and the three entries
    [render] adds. The outgoing messages are dropped before the template is
    looked up: they are gone also when the template is missing or fails to
    render. When [prepare_render] raises, nothing was touched. *)
Theorem render_drops_outgoing_messages
    (get_template :
       string → outcome (gmap string Flash.template_value → outcome string))
    (prepare_render : gmap string Flash.template_value
                      → outcome (gmap string Flash.template_value))
    (template : string) (tmplname : option string) (values errors : pyval)
    (kwargs : gmap string Flash.template_value) (s : Flash.messages) :
  (∀ data, prepare_render kwargs = Ok data →
     Flash.render get_template prepare_render template tmplname values
       errors kwargs s
     = (get_template (default template tmplname)
          ≫= (λ tmpl,
                tmpl (<["flash_messages" :=
                          Flash.TMessages (Flash.messages_in s
                                           ++ Flash.messages_out s)]>
                        (<["errors" := Flash.TValue errors]>
                           (<["values" := Flash.TValue values]> data)))),
        Flash.Separate (Flash.messages_in s) []))
  ∧ (∀ e, prepare_render kwargs = Raise e →
       Flash.render get_template prepare_render template tmplname values
         errors kwargs s
       = (Raise e, s)).
Proof.
  split.
  - intros data Hp. unfold Flash.render. unfold st_bind at 1.
    rewrite (render_data_returns _ _ _ _ _ _ Hp).
    unfold st_bind, st_lift, template_data, Flash.clear_messages_out.
    by destruct (get_template _).
  - intros e Hp. unfold Flash.render, Flash.render_data, st_bind, st_lift.
    by rewrite Hp.
Qed.

Lemma render_drops_outgoing_messages_witness :
  Flash.render (λ _, Raise (UserException ["TemplateNotFound"] "index.html"))
    Ok "index.html" None VNone VNone ∅ (Flash.Separate [] [saved_message])
  = (Raise (UserException ["TemplateNotFound"] "index.html"),
     Flash.Separate [] []).
Proof.
  apply (proj1 (render_drops_outgoing_messages
                  (λ _, Raise (UserException ["TemplateNotFound"] "index.html"))
                  Ok "index.html" None VNone VNone ∅
                  (Flash.Separate [] [saved_message])) ∅ eq_refl).
Defined.

(** ** The configuration of an application *)

(** X13. In the configuration [Application.__init__] builds, a keyword
    argument wins over the argument [config], which wins over the class
    attribute [defaults], which wins over [enforced_defaults]; every key of
    [enforced_defaults] has a value whatever was supplied, and no key has
    one that was neither supplied nor enforced. *)
Theorem init_config_layers (defaults config kw : gmap string Setup.setting)
    (k : string) :
  Setup.init_config defaults config kw !! k
  = match kw !! k, config !! k, defaults !! k with
    | Some v, _, _ => Some v
    | None, Some v, _ => Some v
    | None, None, Some v => Some v
    | None, None, None => Setup.enforced_defaults !! k
    end
  ∧ (is_Some (Setup.enforced_defaults !! k) →
     is_Some (Setup.init_config defaults config kw !! k))
  ∧ (Setup.init_config defaults config kw !! k = None ↔
     kw !! k = None ∧ config !! k = None ∧ defaults !! k = None
     ∧ Setup.enforced_defaults !! k = None).
Proof.
  assert (E : Setup.init_config defaults config kw !! k
              = match kw !! k, config !! k, defaults !! k with
                | Some v, _, _ => Some v
                | None, Some v, _ => Some v
                | None, None, Some v => Some v
                | None, None, None => Setup.enforced_defaults !! k
                end).
  { unfold Setup.init_config. rewrite !lookup_union.
    destruct (kw !! k), (config !! k), (defaults !! k),
      (Setup.enforced_defaults !! k); reflexivity. }
  rewrite E. split_and!; [done| |].
  - intros [v Hv]. rewrite Hv.
    destruct (kw !! k), (config !! k), (defaults !! k); by eexists.
  - destruct (kw !! k), (config !! k), (defaults !! k),
      (Setup.enforced_defaults !! k);
      (split; [intros ?; by split_and? | by intros (? & ? & ? & ?)]).
Qed.

Lemma init_config_layers_witness :
  Setup.init_config {[ "debug" := Setup.SBool true ]} ∅
    {[ "testing" := Setup.SBool true ]} !! "debug"
  = Some (Setup.SBool true)
  ∧ is_Some (Setup.init_config ∅ ∅ ∅ !! "secret_key").
Proof.
  split.
  - etrans; [apply (proj1 (init_config_layers _ _ _ "debug")) | reflexivity].
  - apply (proj1 (proj2 (init_config_layers ∅ ∅ ∅ "secret_key"))).
    by eexists.
Defined.

(** ** The URL of the static files *)

Lemma startswith_slash_app s : startswith ("/" ++ s) "/" = true.
Proof. unfold startswith. simpl. by destruct s. Qed.

(** X14. The path [Application.__init__] registers the static files under
    begins with a slash whatever [static_url_path] is, and ends with the
    path parameter [filename]; a [static_url_path] that begins with a slash
    and does not end with one is used as it is. *)
Theorem static_rule_path_is_absolute (static_url_path : string) :
  startswith (Setup.clean_static_url_path static_url_path) "/" = true
  ∧ Setup.static_rule_path static_url_path
    = Setup.clean_static_url_path static_url_path ++ "/<path:filename>"
  ∧ (startswith static_url_path "/" = true →
     endswith static_url_path "/" = false →
     Setup.clean_static_url_path static_url_path = static_url_path).
Proof.
  unfold Setup.clean_static_url_path. split_and!; [|done|].
  - destruct (endswith static_url_path "/").
    + destruct (startswith (but_last static_url_path) "/") eqn:Hs; simpl;
        [done | apply startswith_slash_app].
    + destruct (startswith static_url_path "/") eqn:Hs; simpl;
        [done | apply startswith_slash_app].
  - intros Hs He. cbv zeta. by rewrite He, Hs.
Qed.

Lemma static_rule_path_is_absolute_witness :
  Setup.clean_static_url_path "/static" = "/static"
  ∧ Setup.static_rule_path "static/" = "/static/<path:filename>"
  ∧ Setup.static_rule_path "/" = "//<path:filename>".
Proof.
  split_and!; [|reflexivity..].
  apply (proj2 (proj2 (static_rule_path_is_absolute "/static")));
    reflexivity.
Defined.

(** ** The routes of an application *)

Section Routes.
Context {Session rule : Type}.
Variable url_rule_class : string → gmap string pyval → outcome rule.
Implicit Types (self : Setup.routing (Session := Session) (rule := rule)).
Implicit Types (route : Setup.URL (Session := Session)).

Lemma add_url_rule_Ok self route self' :
  Setup.add_url_rule url_rule_class self route = Ok self' →
  ∃ ep r,
    Setup.endpoint_of route = Some ep
    ∧ url_rule_class (Setup.path route)
        (Setup.rule_options ep (Setup.options route)) = Ok r
    ∧ Setup.url_map self' = (Setup.url_map self ++ [r])%list
    ∧ Setup.handlers self'
      = match Setup.handler route with
        | Some h => <[ep := h]> (Setup.handlers self)
        | None => Setup.handlers self
        end.
Proof.
  unfold Setup.add_url_rule, Setup.endpoint_of.
  destruct (Setup.endpoint route) as [ep|]; simpl.
  - destruct (url_rule_class _ _) as [r|] eqn:Hr; simpl; [|done].
    intros [= <-]. by exists ep, r.
  - destruct (Setup.handler route) as [h|]; simpl; [|done].
    destruct (url_rule_class _ _) as [r|] eqn:Hr; simpl; [|done].
    intros [= <-]. by exists (handler_name h), r.
Qed.

(** A route with neither an endpoint nor a handler is refused. *)
Lemma add_url_rule_refused self route :
  Setup.endpoint route = None → Setup.handler route = None →
  Setup.add_url_rule url_rule_class self route
  = Raise (UserException ["AssertionError"; "StandardError"]
             "handler and endpoint not provided").
Proof. unfold Setup.add_url_rule. by intros -> ->. Qed.

Lemma add_routes_raises routes : ∀ self route,
  route ∈ routes →
  Setup.endpoint route = None → Setup.handler route = None →
  ∃ e, Setup.add_routes url_rule_class self routes = Raise e.
Proof.
  induction routes as [|route' routes IH]; intros self route Hin He Hh.
  - by apply elem_of_nil in Hin.
  - simpl. apply elem_of_cons in Hin as [<-|Hin].
    + rewrite (add_url_rule_refused _ _ He Hh). simpl. eauto.
    + destruct (Setup.add_url_rule url_rule_class self route') as [self1|e];
        simpl; [by eapply IH | eauto].
Qed.

Lemma add_routes_Ok routes : ∀ self self',
  Setup.add_routes url_rule_class self routes = Ok self' →
  length (Setup.url_map self')
  = (length (Setup.url_map self) + length routes)%nat
  ∧ (∀ ep, (∀ route, route ∈ routes → ¬ brings_handler route ep) →
           Setup.handlers self' !! ep = Setup.handlers self !! ep)
  ∧ (∀ pre route post ep h,
       routes = (pre ++ route :: post)%list →
       Setup.endpoint_of route = Some ep →
       Setup.handler route = Some h →
       (∀ route', route' ∈ post → ¬ brings_handler route' ep) →
       Setup.handlers self' !! ep = Some h).
Proof.
  induction routes as [|route routes IH]; intros self self'; simpl.
  - intros [= <-]. split_and!; [lia | done |].
    intros pre route post ep h Hr. by destruct pre.
  - destruct (Setup.add_url_rule url_rule_class self route) as [self1|e]
      eqn:Ha; simpl; [|done].
    intros Hrest. apply add_url_rule_Ok in Ha as (ep0 & r & Hep & _ & Hm & Hh).
    destruct (IH _ _ Hrest) as (Hlen & Hkeep & Hlast).
    assert (Hstep : ∀ ep, ¬ brings_handler route ep →
                          Setup.handlers self1 !! ep
                          = Setup.handlers self !! ep).
    { intros ep Hno. rewrite Hh.
      destruct (Setup.handler route) as [h|] eqn:Hhr; [|done].
      apply lookup_insert_ne. intros <-. apply Hno. split; [done|].
      rewrite Hhr. by eexists. }
    split_and!.
    + rewrite Hlen, Hm, length_app. simpl. lia.
    + intros ep Hno. rewrite Hkeep.
      * apply Hstep, Hno. by left.
      * intros route' Hin. apply Hno. by right.
    + intros pre route' post ep h Hr Hep' Hh' Hno.
      destruct pre as [|route0 pre]; simpl in Hr.
      * injection Hr as -> ->. rewrite (Hkeep ep Hno), Hh, Hh'.
        assert (ep0 = ep) as -> by congruence. apply lookup_insert_eq.
      * injection Hr as -> ->. by eapply Hlast.
Qed.

(** The handlers [__init__] has registered when the rule for the static
    files is added. *)
Lemma init_routes_Ok (routes : list Setup.URL) (static_url_path : string)
    (StaticFileHandler : HandlerClass) self' :
  Setup.init_routes url_rule_class routes static_url_path StaticFileHandler
  = Ok self' →
  length (Setup.url_map self') = S (length routes)
  ∧ Setup.handlers self' !! "static" = Some StaticFileHandler
  ∧ (∀ pre route post ep h,
       routes = (pre ++ route :: post)%list →
       Setup.endpoint_of route = Some ep →
       Setup.handler route = Some h →
       ep ≠ "static" →
       (∀ route', route' ∈ post → ¬ brings_handler route' ep) →
       Setup.handlers self' !! ep = Some h)
  ∧ (∀ ep, ep ≠ "static" →
           (∀ route, route ∈ routes → ¬ brings_handler route ep) →
           Setup.handlers self' !! ep = None).
Proof.
  unfold Setup.init_routes.
  destruct (Setup.add_routes url_rule_class Setup.empty routes)
    as [self1|e] eqn:Hr; simpl; [|done].
  intros Ha. apply add_url_rule_Ok in Ha as (ep0 & r & Hep & _ & Hm & Hh).
  simpl in Hep, Hh. injection Hep as <-.
  destruct (add_routes_Ok _ _ _ Hr) as (Hlen & Hkeep & Hlast).
  split_and!.
  - rewrite Hm, length_app, Hlen. simpl. lia.
  - rewrite Hh. apply lookup_insert_eq.
  - intros pre route post ep h Hroutes Hep Hhr Hne Hno.
    rewrite Hh, lookup_insert_ne by done. by eapply Hlast.
  - intros ep Hne Hno. rewrite Hh, lookup_insert_ne by done.
    rewrite (Hkeep ep Hno). apply lookup_empty.
Qed.

(** X15. The route table [Application.__init__] has built when it calls
    [finalize_setup]: one rule for every route of the class and one more
    for the static files; the handler for static files under the endpoint
    [static], also when a route of the class brought a handler for that
    endpoint; under every other endpoint the handler of the last route that
    brought one, and no handler under an endpoint no route brought one for.
    A route with neither an endpoint nor a handler makes [__init__]
    raise. *)
Theorem init_routes_handlers (routes : list Setup.URL)
    (static_url_path : string) (StaticFileHandler : HandlerClass) :
  (∀ self',
     Setup.init_routes url_rule_class routes static_url_path
       StaticFileHandler = Ok self' →
     length (Setup.url_map self') = S (length routes)
     ∧ Setup.handlers self' !! "static" = Some StaticFileHandler
     ∧ (∀ pre route post ep h,
          routes = (pre ++ route :: post)%list →
          Setup.endpoint_of route = Some ep →
          Setup.handler route = Some h →
          ep ≠ "static" →
          (∀ route', route' ∈ post → ¬ brings_handler route' ep) →
          Setup.handlers self' !! ep = Some h)
     ∧ (∀ ep, ep ≠ "static" →
              (∀ route, route ∈ routes → ¬ brings_handler route ep) →
              Setup.handlers self' !! ep = None))
  ∧ (∀ route,
       route ∈ routes →
       Setup.endpoint route = None → Setup.handler route = None →
       ∃ e, Setup.init_routes url_rule_class routes static_url_path
              StaticFileHandler = Raise e).
Proof.
  split; [intros self'; apply init_routes_Ok|].
  intros route Hin He Hh. unfold Setup.init_routes.
  destruct (add_routes_raises routes Setup.empty route Hin He Hh) as [e Hr].
  exists e. by rewrite Hr.
Qed.
End Routes.

Lemma init_routes_handlers_witness :
  ∃ self',
    Setup.init_routes path_rule index_routes "static/"
      (answering "StaticFileHandler" (ok_response "file") None) = Ok self'
    ∧ handler_name <$> Setup.handlers self' !! "static"
      = Some "StaticFileHandler"
    ∧ handler_name <$> Setup.handlers self' !! "index" = Some "Home"
    ∧ Setup.url_map self'
      = ["/"; "/home"; "/assets"; "/static/<path:filename>"].
Proof.
  eexists. split; [reflexivity|].
  destruct (proj1 (init_routes_handlers path_rule index_routes "static/"
                     (answering "StaticFileHandler" (ok_response "file") None))
              _ eq_refl) as (_ & Hs & Hl & _).
  split_and!; [by rewrite Hs | | reflexivity].
  rewrite (Hl [ {| Setup.path := "/"; Setup.endpoint := Some "index";
                   Setup.handler :=
                     Some (answering "Index" (ok_response "hi") None);
                   Setup.options := ∅ |} ]
              {| Setup.path := "/home"; Setup.endpoint := Some "index";
                 Setup.handler :=
                   Some (answering "Home" (ok_response "home") None);
                 Setup.options := ∅ |}
              [ {| Setup.path := "/assets"; Setup.endpoint := Some "static";
                   Setup.handler :=
                     Some (answering "Assets" (ok_response "css") None);
                   Setup.options := ∅ |} ]
              "index" (answering "Home" (ok_response "home") None)
              eq_refl eq_refl eq_refl); [done | done |].
  intros route' Hin [Hep _]. apply list_elem_of_singleton in Hin as ->.
  discriminate Hep.
Defined.

(** ** The cascade: which handler an exception reaches *)

Lemma isinstance_HTTPException cls c d :
  isinstance (HTTPException cls c d) "HTTPException" = true.
Proof.
  unfold isinstance, mro.
  destruct (String.eqb cls "HTTPException"); [done|].
  destruct (String.eqb cls "RequestRedirect"); [done|].
  simpl. by rewrite orb_true_r.
Qed.

Section Cascade.
Context {Session : Type} `{SessionInterface Session}.
Implicit Types (self : Application (Session := Session)).
Implicit Types (st : state (Session := Session)).


(** An HTTP exception goes to [handle_http_exception]. *)
Lemma handle_user_exception_http context self request cls c d st :
  handle_user_exception context self request (HTTPException cls c d) st
  = handle_http_exception context self request (HTTPException cls c d) st.
Proof. unfold handle_user_exception. by rewrite isinstance_HTTPException. Qed.


End Cascade.

(** X16. An HTTP exception never reaches a handler registered for an
    exception class, were it [Exception] or [HTTPException] itself:
    [handle_user_exception] hands it to [handle_http_exception], which
    looks at status codes alone; registered under classes only, no handler
    is called, and the exception is returned as the response. *)
Theorem http_exception_skips_class_handlers {Session : Type}
    `{SessionInterface Session} (self : Application (Session := Session))
    (request : Request) (cls : string) (c : option Z) (d : option string)
    (st : state) (context : list Processor) :
  handle_user_exception context self request (HTTPException cls c d) st
  = handle_http_exception context self request (HTTPException cls c d) st
  ∧ ((∀ k handler_class, (k, handler_class) ∈ error_handlers self →
                         ∃ typecheck, k = Class typecheck) →
     handle_user_exception context self request (HTTPException cls c d) st
     = (Ok (ExcResponse (HTTPException cls c d)), st)).
Proof.
  pose proof (handle_user_exception_http context self request cls c d st)
    as E.
  split; [done|]. intros Hkeys. rewrite E.
  unfold handle_http_exception. st_unfold. simpl.
  assert (lookup_code self c = None) as ->; [|done].
  destruct c as [c|]; [|done]. apply lookup_code_None.
  intros handler_class Hin. by destruct (Hkeys _ _ Hin).
Qed.

Lemma http_exception_skips_class_handlers_witness :
  handle_user_exception [inject get_request] catch_all get_request NotFound
    initial
  = (Ok (ExcResponse NotFound), initial).
Proof.
  apply (proj2 (http_exception_skips_class_handlers catch_all get_request
                  "NotFound" (Some 404) None initial [inject get_request])).
  intros k handler_class Hin. apply list_elem_of_singleton in Hin.
  injection Hin as -> _. by eexists.
Defined.



(** ** The outermost layer *)

Section Outermost.
Context {Session : Type} `{SessionInterface Session}.
Implicit Types (self : Application (Session := Session)).
Implicit Types (st : state (Session := Session)).

(** With its instance built, an error handler called where no processor
    is in effect yields a response. *)
Lemma call_error_handler_responds self handler_class request kwargs st :
  is_Some (value_of (new handler_class request)) →
  ∃ response,
    (call_error_handler [] self handler_class request kwargs st).1
    = Ok response.
Proof.
  intros [handler Hn].
  destruct (new handler_class request) as [handler'|] eqn:Hnew; [|done].
  destruct (call handler' kwargs) as [response|e] eqn:Hc.
  - exists response.
    by rewrite (call_error_handler_returns _ _ _ _ _ _ _ _ Hnew Hc).
  - eexists. by rewrite (call_error_handler_raises _ _ _ _ _ _ _ Hnew Hc).
Qed.

Lemma handle_exception_propagates self request e st :
  propagate_exceptions self = true →
  handle_exception self request e st = (Raise e, st).
Proof. intros Hp. unfold handle_exception. by rewrite Hp. Qed.
End Outermost.

(** X18. With exception propagation off, [__call__] answers every request
    with a response, as long as the class registered for 500, when there is
    one, can be instantiated: whatever [process_request] raises is logged
    and answered by the handler for 500, by the generic internal server
    error when none is registered, and by the internal server error of
    [call_error_handler] when the handler itself raises. *)
Theorem call_always_responds {Session : Type} `{SessionInterface Session}
    (self : Application (Session := Session)) (request : Request)
    (st : state) :
  propagate_exceptions self = false →
  (∀ handler_class, lookup_code self (Some 500) = Some handler_class →
                    is_Some (value_of (new handler_class request))) →
  (∃ response, (__call__ self request st).1 = Ok response)
  ∧ (∀ e s1,
       process_request self request st = (Raise e, s1) →
       lookup_code self (Some 500) = None →
       __call__ self request st
       = (Ok (ExcResponse (InternalServerError None)),
          {| _got_first_request := _got_first_request s1;
             trace := (trace s1 ++ [Logged_exception])%list |})).
Proof.
  intros Hp Hnew. unfold __call__, st_try. split.
  - destruct (process_request self request st) as [[response|e] s1];
      [by exists response|].
    unfold handle_exception. rewrite Hp. unfold st_bind, emit, st_modify.
    simpl. destruct (lookup_code self (Some 500)) as [hc|] eqn:Hl.
    + by apply call_error_handler_responds, Hnew.
    + by eexists.
  - intros e s1 -> Hl. unfold handle_exception. rewrite Hp, Hl.
    by st_unfold.
Qed.

Lemma call_always_responds_witness :
  (∃ response, (__call__ all_failing get_request initial).1 = Ok response)
  ∧ (__call__ raising_hook get_request initial).1
    = Ok (ExcResponse (InternalServerError None)).
Proof.
  split.
  - eapply proj1, (call_always_responds all_failing get_request initial);
      [reflexivity|].
    intros hc Hl. injection Hl as <-. by eexists.
  - assert (P : ∀ hc, lookup_code raising_hook (Some 500) = Some hc →
                      is_Some (value_of (new hc get_request)))
      by (intros hc Hl; discriminate Hl).
    by rewrite (proj2 (call_always_responds raising_hook get_request initial
                         eq_refl P)
                  (UserException ["RuntimeError"] "not ready")
                  {| _got_first_request := false;
                     trace := [Before_first_request get_request] |}
                  eq_refl eq_refl).
Defined.

(** X19. With exception propagation on, [__call__] is [process_request]:
    a response is returned as it is and an exception is raised again as it
    is, with no error handler called. Propagation is on when the
    configuration says so, and when it says nothing and [testing] or
    [debug] is set; it is off when the configuration says so, in debug mode
    too. *)
Theorem call_propagates {Session : Type} `{SessionInterface Session}
    (self : Application (Session := Session)) (request : Request)
    (st : state) :
  (config_propagate_exceptions self = Some true
   ∨ (config_propagate_exceptions self = None
      ∧ (testing self = true ∨ debug self = true)) →
   __call__ self request st = process_request self request st)
  ∧ (config_propagate_exceptions self = Some false →
     propagate_exceptions self = false).
Proof.
  split.
  - intros Hcfg.
    assert (Hp : propagate_exceptions self = true).
    { unfold propagate_exceptions.
      destruct Hcfg as [->|[-> [->| ->]]]; [done..|]. apply orb_true_r. }
    unfold __call__, st_try.
    destruct (process_request self request st) as [[response|e] s1]; [done|].
    by apply handle_exception_propagates.
  - unfold propagate_exceptions. by intros ->.
Qed.

Lemma call_propagates_witness :
  (__call__ all_failing_debug get_request initial).1
  = Raise (UserException ["RuntimeError"] "not ready").
Proof.
  rewrite (proj1 (call_propagates all_failing_debug get_request initial)).
  - reflexivity.
  - right. split; [reflexivity|]. by right.
Defined.

(** ** Routing *)

(** X20. When the URL map raises an HTTP exception, [find_handler] raises
    and leaves the application as it was: in debug mode, for a redirect of
    a request that is no GET, HEAD or OPTIONS, it raises
    [FormDataRoutingRedirect]; in every other case the exception of the
    URL map itself. An exception of the URL map that is no HTTP exception
    is raised as it is. *)
Theorem find_handler_routing_exception {Session : Type}
    `{SessionInterface Session} (self : Application (Session := Session))
    (request : Request) (e : exn) (st : state) :
  url_match self request = Raise e →
  (isinstance e "HTTPException" = false →
   find_handler self request st = (Raise e, st))
  ∧ (isinstance e "HTTPException" = true →
     (debug self = true →
      isinstance e "RequestRedirect" = true →
      req_method request ∉ ["GET"; "HEAD"; "OPTIONS"] →
      find_handler self request st
      = (Raise (FormDataRoutingRedirect (req_method request)), st))
     ∧ (debug self = false ∨ isinstance e "RequestRedirect" = false
        ∨ req_method request ∈ ["GET"; "HEAD"; "OPTIONS"] →
        find_handler self request st = (Raise e, st))).
Proof.
  intros Hu. unfold find_handler. rewrite Hu. split.
  - by intros ->.
  - intros ->. unfold raise_routing_exception. split.
    + intros -> -> Hm. simpl. by rewrite bool_decide_eq_false_2.
    + intros [->|[->|Hm]]; [done | by rewrite orb_true_r |].
      rewrite (bool_decide_eq_true_2 _ Hm). by rewrite !orb_true_r.
Qed.

Lemma find_handler_routing_exception_witness :
  find_handler redirecting post_request initial
  = (Raise (FormDataRoutingRedirect "POST"), initial)
  ∧ find_handler redirecting get_request initial
    = (Raise (RequestRedirect "/home/"), initial).
Proof.
  split.
  - apply (proj1 (proj2 (find_handler_routing_exception redirecting
                           post_request (RequestRedirect "/home/") initial
                           eq_refl) eq_refl));
      [reflexivity | reflexivity |].
    intros Hin. repeat (apply elem_of_cons in Hin as [Hin|Hin];
                        [discriminate Hin|]).
    by apply elem_of_nil in Hin.
  - apply (proj2 (proj2 (find_handler_routing_exception redirecting
                           get_request (RequestRedirect "/home/") initial
                           eq_refl) eq_refl)).
    right. right. by left.
Defined.

(** X21. An application whose handlers are those [__init__] registered: a
    request the URL map matches with the endpoint of a route that brought a
    handler instantiates the handler class of the last route that brought
    one for that endpoint. A request matched with an endpoint no handler
    was registered for raises [KeyError]. *)
Theorem find_handler_last_registered {Session rule : Type}
    `{SessionInterface Session}
    (url_rule_class : string → gmap string pyval → outcome rule)
    (routes : list Setup.URL) (static_url_path : string)
    (StaticFileHandler : HandlerClass)
    (routing : Setup.routing (Session := Session) (rule := rule))
    (self : Application (Session := Session)) (request : Request)
    (ep : string) (view_args : gmap string karg) (st : state) :
  Setup.init_routes url_rule_class routes static_url_path StaticFileHandler
  = Ok routing →
  handlers self = Setup.handlers routing →
  url_match self request = Ok (ep, view_args) →
  ep ≠ "static" →
  (∀ pre route post h,
     routes = (pre ++ route :: post)%list →
     Setup.endpoint_of route = Some ep →
     Setup.handler route = Some h →
     (∀ route', route' ∈ post → ¬ brings_handler route' ep) →
     find_handler self request st
     = (match new h request with
        | Ok handler => Ok (handler, view_args)
        | Raise e => Raise e
        end,
        {| _got_first_request := _got_first_request st;
           trace := (trace st ++ [Instantiated (handler_name h)])%list |}))
  ∧ ((∀ route, route ∈ routes → ¬ brings_handler route ep) →
     find_handler self request st = (Raise (KeyError ep), st)).
Proof.
  intros Hinit Hh Hu Hne.
  destruct (init_routes_Ok url_rule_class routes static_url_path
              StaticFileHandler routing Hinit)
    as (_ & _ & Hlast & Hnone).
  unfold find_handler. rewrite Hu, Hh. split.
  - intros pre route post h Hroutes Hep Hhr Hno.
    rewrite (Hlast pre route post ep h Hroutes Hep Hhr Hne Hno).
    st_unfold. simpl. by destruct (new h request).
  - intros Hno. by rewrite (Hnone ep Hne Hno).
Qed.

Lemma find_handler_last_registered_witness :
  ∃ routing,
    Setup.init_routes path_rule index_routes "static/"
      (answering "StaticFileHandler" (ok_response "file") None) = Ok routing
    ∧ (find_handler (index_application (Setup.handlers routing)) get_request
         initial).2
      = {| _got_first_request := false; trace := [Instantiated "Home"] |}.
Proof.
  eexists. split; [reflexivity|].
  erewrite (proj1 (find_handler_last_registered path_rule index_routes
                     "static/"
                     (answering "StaticFileHandler" (ok_response "file") None)
                     _ (index_application _) get_request "index" ∅ initial
                     eq_refl eq_refl eq_refl _)
              [ {| Setup.path := "/"; Setup.endpoint := Some "index";
                   Setup.handler :=
                     Some (answering "Index" (ok_response "hi") None);
                   Setup.options := ∅ |} ]
              {| Setup.path := "/home"; Setup.endpoint := Some "index";
                 Setup.handler :=
                   Some (answering "Home" (ok_response "home") None);
                 Setup.options := ∅ |}
              [ {| Setup.path := "/assets"; Setup.endpoint := Some "static";
                   Setup.handler :=
                     Some (answering "Assets" (ok_response "css") None);
                   Setup.options := ∅ |} ]
              (answering "Home" (ok_response "home") None)
              eq_refl eq_refl eq_refl).
  - reflexivity.
  - intros route' Hin [Hep _]. apply list_elem_of_singleton in Hin as ->.
    discriminate Hep.
  Unshelve. discriminate.
Defined.

(** ** The session of a handler that raised *)

(** X22. When the handler was built and its call raises, the response
    [handle_user_exception] makes of the exception is treated like a
    response of the handler: with a session that is not the null session,
    [save_session] is called with that response, which for an HTTP
    exception without a registered handler is the exception itself. *)
Theorem session_saved_after_handler_exception {Session : Type}
    `{SessionInterface Session} (self : Application (Session := Session))
    (request : Request) (st st1 s1 : state) (handler : HandlerInstance)
    (view_args : gmap string karg) (e : exn) :
  check_first_request self request st = (Ok tt, st1) →
  find_handler self request st1 = (Ok (handler, view_args), s1) →
  call handler view_args = Raise e →
  is_null_session (session handler) = false →
  (∀ response s2,
     handle_user_exception [inject request] self request e s1
     = (Ok response, s2) →
     process_request self request st
     = (save_session (session handler) response ≫= finalize_response self,
        {| _got_first_request := _got_first_request s2;
           trace := (trace s2
                     ++ [Saved_session (session handler) response])%list |}))
  ∧ (∀ cls c d,
       e = HTTPException cls (Some c) d →
       lookup_code self (Some c) = None →
       process_request self request st
       = (save_session (session handler) (ExcResponse e)
            ≫= finalize_response self,
          {| _got_first_request := _got_first_request s1;
             trace := (trace s1
                       ++ [Saved_session (session handler)
                             (ExcResponse e)])%list |}))
  ∧ (∀ e' s2,
       handle_user_exception [inject request] self request e s1
       = (Raise e', s2) →
       process_request self request st = (Raise e', s2)).
Proof.
  intros Hc Hf Hcall Hn.
  assert (Hresp : handler_response [inject request] self request handler
                    view_args s1
                  = handle_user_exception [inject request] self request e s1).
  { unfold handler_response, st_try, st_lift. by rewrite Hcall. }
  assert (Hsaved : ∀ response s2,
            handle_user_exception [inject request] self request e s1
            = (Ok response, s2) →
            process_request self request st
            = (save_session (session handler) response
                 ≫= finalize_response self,
               {| _got_first_request := _got_first_request s2;
                  trace := (trace s2
                            ++ [Saved_session (session handler)
                                  response])%list |})).
  { intros response s2 Hu.
    rewrite (process_request_handler _ _ _ _ _ _ _ Hc Hf).
    unfold st_bind at 1. rewrite Hresp, Hu. unfold persist. rewrite Hn.
    simpl. st_unfold. simpl.
    by destruct (save_session (session handler) response). }
  split_and!; [done| |].
  - intros cls c d -> Hl. apply Hsaved.
    rewrite handle_user_exception_http.
    by apply handle_http_exception_unregistered.
  - intros e' s2 Hu. rewrite (process_request_handler _ _ _ _ _ _ _ Hc Hf).
    unfold st_bind at 1. by rewrite Hresp, Hu.
Qed.

Lemma session_saved_after_handler_exception_witness :
  saved_sessions (process_request aborting get_request initial).2
  = [(Some "user=7", ExcResponse NotFound)].
Proof.
  assert (Hcheck : check_first_request aborting get_request initial
                   = (Ok tt, {| _got_first_request := true;
                                trace := [Before_first_request get_request] |}))
    by reflexivity.
  assert (Hfind : find_handler aborting get_request
                    {| _got_first_request := true;
                       trace := [Before_first_request get_request] |}
                  = (Ok ({| call := λ _, Raise NotFound;
                            session := Some "user=7" |}, ∅), routed))
    by reflexivity.
  assert (Hcall : call {| call := λ _, Raise NotFound;
                          session := Some "user=7" |} ∅ = Raise NotFound)
    by reflexivity.
  assert (Hnull : is_null_session
                    (session {| call := λ _ : gmap string karg, Raise NotFound;
                                session := Some "user=7" |}) = false)
    by reflexivity.
  destruct (session_saved_after_handler_exception aborting get_request
              initial _ routed _ ∅ NotFound Hcheck Hfind Hcall Hnull)
    as (_ & P & _).
  assert (Hcode : lookup_code aborting (Some 404%Z) = None) by reflexivity.
  by rewrite (P "NotFound" 404%Z None eq_refl Hcode).
Defined.
